(** * Timber Frame Designer: size selection, derived geometry, report and
      input validation of [timber_frame_designer.py], embedded in Rocq.

    Numbers.  The program computes with Python floats (everything typed at
    the prompt goes through [float(...)]) and with small integer constants.
    A Python float is an IEEE-754 binary64 value: a rational, one of the two
    infinities, or a NaN.  [pyfloat] keeps exactly this case distinction.
    Comparisons between floats and integers are exact in Python, so the
    comparison functions below are the ones the interpreter evaluates.
    Arithmetic on finite values is carried out in exact rational arithmetic
    (no rounding, no overflow); the special values follow IEEE-754.

    Where a property depends on the rounding itself, two further models
    are used: [Binary64] replays the bent layout on the machine's binary64
    numbers, and the definitions under "Rounded arithmetic" take the
    rounding as a function with the relative error of binary64.  Facts
    proved on the exact model that involve magnitudes are stated on ranges
    where no operation of the code overflows or underflows. *)

From stdpp Require Import gmap.
From Stdlib Require Import ZArith QArith Qround Qabs Lqa Lia List String Ascii DecimalString.
From Stdlib Require Floats.
Import ListNotations.

Local Open Scope Z_scope.

(** ** Python numbers *)

Inductive pyfloat : Type :=
| Finite (q : Q)
| PInf
| NInf
| NaN.

(** An [int] operand of a mixed comparison or operation. *)
Definition of_int (z : Z) : pyfloat := Finite (inject_Z z).

(** [x <= y] *)
Definition fle (x y : pyfloat) : bool :=
  match x, y with
  | NaN, _ | _, NaN => false
  | NInf, _ => true
  | _, PInf => true
  | Finite a, Finite b => Qle_bool a b
  | PInf, _ => false
  | Finite _, NInf => false
  end.

(** [x < y] *)
Definition flt (x y : pyfloat) : bool :=
  match x, y with
  | NaN, _ | _, NaN => false
  | NInf, NInf => false
  | NInf, _ => true
  | PInf, _ => false
  | Finite _, PInf => true
  | Finite _, NInf => false
  | Finite a, Finite b => negb (Qle_bool b a)
  end.

(** [x > y] *)
Definition fgt (x y : pyfloat) : bool := flt y x.

(** [x == y] *)
Definition feq (x y : pyfloat) : bool :=
  match x, y with
  | Finite a, Finite b => Qeq_bool a b
  | PInf, PInf | NInf, NInf => true
  | _, _ => false
  end.

(** ** Exceptions *)

Inductive exn : Type :=
| ValueError
| OverflowError
| ZeroDivisionError
| EOFError.

Definition result (A : Type) : Type := (exn + A)%type.

Definition raise {A : Type} (e : exn) : result A := inl e.

#[global] Instance result_ret : MRet result := fun A a => inr a.
#[global] Instance result_bind : MBind result :=
  fun A B f m => match m with inl e => inl e | inr a => f a end.

(** ** Arithmetic *)

(** [x + y] *)
Definition fadd (x y : pyfloat) : pyfloat :=
  match x, y with
  | NaN, _ | _, NaN => NaN
  | Finite a, Finite b => Finite (a + b)
  | PInf, NInf | NInf, PInf => NaN
  | PInf, _ | _, PInf => PInf
  | NInf, _ | _, NInf => NInf
  end.

(** An infinity times the finite value [a]. *)
Definition scale_inf (positive : bool) (a : Q) : pyfloat :=
  if Qeq_bool a 0 then NaN
  else if Bool.eqb positive (Qle_bool 0 a) then PInf else NInf.

(** [x * y] *)
Definition fmul (x y : pyfloat) : pyfloat :=
  match x, y with
  | NaN, _ | _, NaN => NaN
  | Finite a, Finite b => Finite (a * b)
  | Finite a, PInf | PInf, Finite a => scale_inf true a
  | Finite a, NInf | NInf, Finite a => scale_inf false a
  | PInf, PInf | NInf, NInf => PInf
  | PInf, NInf | NInf, PInf => NInf
  end.

(** [x / y] of Python: a zero divisor raises, whatever the dividend. *)
Definition py_truediv (x y : pyfloat) : result pyfloat :=
  if feq y (of_int 0) then raise ZeroDivisionError
  else mret
    match x, y with
    | NaN, _ | _, NaN => NaN
    | Finite a, Finite b => Finite (a / b)
    | Finite _, _ => Finite 0
    | PInf, Finite b => if Qle_bool 0 b then PInf else NInf
    | NInf, Finite b => if Qle_bool 0 b then NInf else PInf
    | _, _ => NaN
    end.

(** [int(x)]: truncation toward zero; the special values raise. *)
Definition py_int (x : pyfloat) : result Z :=
  match x with
  | Finite q => mret (Z.quot (Qnum q) (Zpos (Qden q)))
  | PInf | NInf => raise OverflowError
  | NaN => raise ValueError
  end.

(** [np.ceil(x)] *)
Definition np_ceil (x : pyfloat) : pyfloat :=
  match x with
  | Finite q => Finite (inject_Z (Qceiling q))
  | _ => x
  end.

(** [min(l, default=d)]; without a default an empty list raises. *)
Definition py_min (l : list Z) (default : option Z) : result Z :=
  match l, default with
  | [], None => raise ValueError
  | [], Some d => mret d
  | x :: xs, _ => mret (fold_left Z.min xs x)
  end.

(** [max(a, b)] on integers. *)
Definition py_max (a b : Z) : Z := if a <? b then b else a.

(** [str(n)] for an [int]. *)
Definition str_int (n : Z) : string := NilZero.string_of_int (Z.to_int n).

(** [str(b)] for an optional [int] bound. *)
Definition str_bound (b : option Z) : string :=
  match b with
  | Some n => str_int n
  | None => "None"%string
  end.

(** The characters [chr(34)] and [chr(10)]. *)
Definition dquote : string := String "034"%char EmptyString.
Definition newline : string := String "010"%char EmptyString.

(** [d.get(key, default)] *)
Definition dict_get {V : Type} (d : gmap (Z * Z) V) (key : Z * Z) (dflt : V) : V :=
  match d !! key with
  | Some v => v
  | None => dflt
  end.

(** ** Sizing tables and size selector ([class TimberFrameDesigner]) *)

(** A member size [[width, depth]] in inches. *)
Definition member_size : Type := (Z * Z)%type.

Module TimberFrameDesigner.

(** [post_sizes]: the dict is only iterated, in insertion order. *)
Definition post_sizes : list ((Z * Z) * member_size) :=
  [ ((0, 30), (6, 6));
    ((30, 50), (8, 8));
    ((50, 70), (10, 10));
    ((70, 100), (12, 12)) ].

(** [beam_sizes]: keyed by [(span_ft, snow_load_psf)]. *)
Definition beam_sizes : gmap (Z * Z) member_size :=
  list_to_map
  [ ((16, 30), (6, 10));
    ((16, 50), (6, 12));
    ((16, 70), (8, 12));
    ((16, 100), (8, 14));
    ((24, 30), (8, 12));
    ((24, 50), (8, 14));
    ((24, 70), (10, 14));
    ((24, 100), (10, 16));
    ((32, 30), (8, 14));
    ((32, 50), (10, 16));
    ((32, 70), (12, 16));
    ((32, 100), (12, 18));
    ((40, 30), (10, 16));
    ((40, 50), (12, 18));
    ((40, 70), (12, 20));
    ((40, 100), (14, 20)) ].

Definition rafter_sizes : gmap (Z * Z) member_size :=
  list_to_map
  [ ((16, 30), (4, 8));
    ((16, 50), (6, 8));
    ((16, 70), (6, 10));
    ((16, 100), (6, 12));
    ((24, 30), (6, 10));
    ((24, 50), (6, 12));
    ((24, 70), (8, 12));
    ((24, 100), (8, 14)) ].

(** The [for ... in self.post_sizes.items()] loop of [get_post_size]:
    [Some size] when an iteration returns. *)
Fixpoint get_post_size_loop (items : list ((Z * Z) * member_size))
    (snow_load : pyfloat) : option member_size :=
  match items with
  | [] => None
  | ((min_load, max_load), size) :: rest =>
      if fle (of_int min_load) snow_load && flt snow_load (of_int max_load)
      then Some size
      else get_post_size_loop rest snow_load
  end.

Definition get_post_size (snow_load : pyfloat) : member_size :=
  match get_post_size_loop post_sizes snow_load with
  | Some size => size
  | None => (12, 12)
  end.

(** The expression [min([c for c in categories if x <= c], default=d)],
    which both selectors below evaluate for the span and for the load. *)
Definition classify (categories : list Z) (d : Z) (x : pyfloat) : result Z :=
  py_min (List.filter (fun c => fle x (of_int c)) categories) (Some d).

Definition get_beam_size (span_ft snow_load : pyfloat) : result member_size :=
  let span_categories := [16; 24; 32; 40] in
  let load_categories := [30; 50; 70; 100] in
  span_cat ← classify span_categories 40 span_ft;
  load_cat ← classify load_categories 100 snow_load;
  mret (dict_get beam_sizes (span_cat, load_cat) (12, 18)).

Definition get_rafter_size (span_ft snow_load : pyfloat) : result member_size :=
  let span_categories := [16; 24] in
  let load_categories := [30; 50; 70; 100] in
  span_cat ← classify span_categories 24 span_ft;
  load_cat ← classify load_categories 100 snow_load;
  mret (dict_get rafter_sizes (span_cat, load_cat) (8, 14)).

End TimberFrameDesigner.

(** ** Derived geometry and report ([class TimberFrameStructure]) *)

Module TimberFrameStructure.

(** The arguments of [__init__], stored as attributes of the same names. *)
Record args : Type := Args {
  length : pyfloat;
  width : pyfloat;
  wall_height : pyfloat;
  roof_pitch : pyfloat;
  snow_load : pyfloat
}.

(** The object once [calculate_dimensions] has run. *)
Record t : Type := Structure {
  given : args;
  post_size : member_size;
  beam_size : member_size;
  rafter_size : member_size;
  ridge_height : pyfloat;
  num_bents : Z;
  bent_spacing : pyfloat
}.

Definition calculate_dimensions (self : args) : result t :=
  let post_size := TimberFrameDesigner.get_post_size (snow_load self) in
  beam_size ← TimberFrameDesigner.get_beam_size (width self) (snow_load self);
  rafter_span ← py_truediv (width self) (of_int 2);
  rafter_size ← TimberFrameDesigner.get_rafter_size rafter_span (snow_load self);
  half_width ← py_truediv (width self) (of_int 2);
  let ridge_height := fadd (wall_height self) (fmul half_width (roof_pitch self)) in
  let ideal_spacing := 12 in
  bays ← py_truediv (length self) (of_int ideal_spacing);
  whole_bays ← py_int bays;
  let num_bents := py_max 2 (whole_bays + 1) in
  bent_spacing ←
    (if 1 <? num_bents
     then py_truediv (length self) (of_int (num_bents - 1))
     else mret (length self));
  mret (Structure self post_size beam_size rafter_size ridge_height
          num_bents bent_spacing).

(** [TimberFrameStructure(length, width, wall_height, roof_pitch, snow_load)] *)
Definition __init__ (length width wall_height roof_pitch snow_load : pyfloat)
  : result t :=
  calculate_dimensions (Args length width wall_height roof_pitch snow_load).

Section Report.

(** What the report borrows from numpy and from Python's float formatting:
    [np.cos], [np.arctan], numpy's division (the divisor of the rafter
    length is a numpy scalar), [str] of a float and the [:.Nf] format. *)
Variable np_cos np_arctan : pyfloat -> pyfloat.
Variable np_true_divide : pyfloat -> pyfloat -> pyfloat.
Variable str_float : pyfloat -> string.
Variable format_f : nat -> pyfloat -> string.

(** [f'{size[0]}" × {size[1]}"'] *)
Definition show_size (size : member_size) : string :=
  (str_int (fst size) ++ dquote ++ " × " ++ str_int (snd size) ++ dquote)%string.

(** The length of one rafter, as the report computes it. *)
Definition rafter_length (self : t) : result pyfloat :=
  half_width ← py_truediv (width (given self)) (of_int 2);
  mret (np_true_divide half_width (np_cos (np_arctan (roof_pitch (given self))))).

(** The number of 16 ft plate pieces, as the report computes it. *)
Definition plate_pieces (self : t) : result Z :=
  run ← py_truediv (fmul (length (given self)) (of_int 2)) (of_int 16);
  py_int (np_ceil run).

(** The lines of the f-string, first to last. *)
Definition report_lines (self : t) (rafter_len : pyfloat) (plates : Z)
  : list string :=
  let a := given self in
  [ "";
    "╔══════════════════════════════════════════════════════════════╗";
    "║           TIMBER FRAME STRUCTURE DESIGN REPORT               ║";
    "╚══════════════════════════════════════════════════════════════╝";
    "";
    "BUILDING DIMENSIONS:";
    "  Length:        " ++ str_float (length a) ++ " ft";
    "  Width:         " ++ str_float (width a) ++ " ft";
    "  Wall Height:   " ++ str_float (wall_height a) ++ " ft";
    "  Ridge Height:  " ++ format_f 1 (ridge_height self) ++ " ft";
    "  Roof Pitch:    " ++ format_f 0 (fmul (roof_pitch a) (of_int 12)) ++ "/12";
    "";
    "DESIGN LOADS:";
    "  Snow Load:     " ++ str_float (snow_load a) ++ " psf";
    "";
    "STRUCTURAL MEMBERS:";
    "  Posts:         " ++ show_size (post_size self);
    "  Beams:         " ++ show_size (beam_size self);
    "  Rafters:       " ++ show_size (rafter_size self);
    "";
    "FRAME LAYOUT:";
    "  Number of Bents: " ++ str_int (num_bents self);
    "  Bent Spacing:    " ++ format_f 1 (bent_spacing self) ++ " ft on center";
    "";
    "MATERIAL REQUIREMENTS (Approximate):";
    "  Posts:         " ++ str_int (num_bents self * 2) ++ " pieces @ "
      ++ str_float (wall_height a) ++ " ft";
    "  Beams:         " ++ str_int (num_bents self) ++ " pieces @ "
      ++ str_float (width a) ++ " ft";
    "  Rafters:       " ++ str_int (num_bents self * 2) ++ " pieces @ "
      ++ format_f 1 rafter_len ++ " ft";
    "  Plates:        " ++ str_int plates ++ " pieces @ 16 ft (both walls)";
    "NOTE: This is a preliminary design. Consult a licensed structural ";
    "engineer for final design and local building code compliance.";
    "        " ]%string.

Definition get_structure_report (self : t) : result string :=
  rafter_len ← rafter_length self;
  plates ← plate_pieces self;
  mret (String.concat newline (report_lines self rafter_len plates)).

End Report.

End TimberFrameStructure.

(** ** The prompt loop ([get_positive_float], [main]) *)

(** A line typed at the prompt, as [float(...)] sees it: text for which
    [float] raises [ValueError], or text it converts to the value [v]
    (the texts [nan], [inf] and [-inf] are converted, too). *)
Inductive typed : Type :=
| NotANumber
| Number (v : pyfloat).

(** The terminal: the lines still to be typed, and what was written. *)
Record console : Type := Console {
  keyboard : list typed;
  screen : list string
}.

Definition io (A : Type) : Type := console -> result A * console.

#[global] Instance io_ret : MRet io := fun A a c => (inr a, c).
#[global] Instance io_bind : MBind io :=
  fun A B f m c =>
    match m c with
    | (inl e, c') => (inl e, c')
    | (inr a, c') => f a c'
    end.

(** [print(s)] *)
Definition print (s : string) : io unit :=
  fun c => (inr tt, Console (keyboard c) (screen c ++ [s])).

(** Lifting a computation that does not touch the terminal. *)
Definition lift {A : Type} (r : result A) : io A := fun c => (r, c).

(** [bound is not None and value > bound] *)
Definition above (bound : option Z) (value : pyfloat) : bool :=
  match bound with
  | Some b => fgt value (of_int b)
  | None => false
  end.

(** [bound is not None and value < bound] *)
Definition below (bound : option Z) (value : pyfloat) : bool :=
  match bound with
  | Some b => flt value (of_int b)
  | None => false
  end.

(** How one iteration of the loop ends: [return value], or a message is
    printed and the loop goes round again. *)
Inductive verdict : Type :=
| Return (value : pyfloat)
| Again (message : string).

(** The body of the [try] for one typed line. *)
Definition validate (min_val max_val : option Z) (line : typed) : verdict :=
  match line with
  | NotANumber => Again "Invalid input. Please enter a number."
  | Number value =>
      if fle value (of_int 0) then Again "Please enter a positive number."
      else if below min_val value
      then Again ("Please enter a value >= " ++ str_bound min_val)
      else if above max_val value
      then Again ("Please enter a value <= " ++ str_bound max_val)
      else Return value
  end.

(** The [while True] loop.  Each iteration writes the prompt and consumes
    one typed line; at the end of the input [input] raises [EOFError],
    which the loop does not catch. *)
Fixpoint get_positive_float_loop (prompt : string) (min_val max_val : option Z)
    (lines : list typed) (written : list string) : result pyfloat * console :=
  match lines with
  | [] => (raise EOFError, Console [] (written ++ [prompt]))
  | line :: rest =>
      match validate min_val max_val line with
      | Return value => (mret value, Console rest (written ++ [prompt]))
      | Again message =>
          get_positive_float_loop prompt min_val max_val rest
            (written ++ [prompt; message])
      end
  end.

Definition get_positive_float (prompt : string) (min_val max_val : option Z)
  : io pyfloat :=
  fun c => get_positive_float_loop prompt min_val max_val (keyboard c) (screen c).

Section Main.

Variable np_cos np_arctan : pyfloat -> pyfloat.
Variable np_true_divide : pyfloat -> pyfloat -> pyfloat.
Variable str_float : pyfloat -> string.
Variable format_f : nat -> pyfloat -> string.

Definition rule : string := String.concat "" (repeat "-"%string 60).

(** [main] up to and including the printing of the report; the drawing
    that follows it is outside this development. *)
Definition main : io unit :=
  print "╔══════════════════════════════════════════════════════════════╗";;
  print "║         TIMBER FRAME DESIGNER                                ║";;
  print "╚══════════════════════════════════════════════════════════════╝";;
  print "";;
  print "This program designs timber frame structures based on your";;
  print "building dimensions and local snow load requirements.";;
  print (newline ++ "-Andrew");;
  print "andrew@cyberdiary.net";;
  print "";;
  print "BUILDING DIMENSIONS";;
  print rule;;
  length ← get_positive_float "Enter building length (feet): " (Some 10) (Some 100);
  width ← get_positive_float "Enter building width (feet): " (Some 10) (Some 60);
  wall_height ←
    get_positive_float "Enter wall height (feet, typical 8-12): " (Some 6) (Some 20);
  print (newline ++ "ROOF SPECIFICATIONS");;
  print rule;;
  print "Common roof pitches: 4/12 (18°), 6/12 (27°), 8/12 (34°), 12/12 (45°)";;
  roof_rise ←
    get_positive_float "Enter roof rise (inches per 12 inches run): " (Some 2) (Some 16);
  roof_pitch ← lift (py_truediv roof_rise (of_int 12));
  print (newline ++ "SNOW LOAD");;
  print rule;;
  print "Reference: https://www.ncdc.noaa.gov/snow-and-ice/";;
  print "Examples: Southeast 10-20 psf, Midwest 20-40 psf, ";;
  print "          Northeast 40-70 psf, Mountain regions 70-150 psf";;
  snow_load ←
    get_positive_float "Enter snow load for your area (psf): " (Some 5) (Some 200);
  print (newline ++ "Calculating structure...");;
  print "";;
  structure ←
    lift (TimberFrameStructure.__init__ length width wall_height roof_pitch snow_load);
  report ←
    lift (TimberFrameStructure.get_structure_report
            np_cos np_arctan np_true_divide str_float format_f structure);
  print report.

End Main.

(** ** 3-D drawing ([visualize_3d] and the [draw_*] methods) *)

(** [-x] and [x - y] *)
Definition fneg (x : pyfloat) : pyfloat :=
  match x with
  | Finite q => Finite (- q)
  | PInf => NInf
  | NInf => PInf
  | NaN => NaN
  end.

Definition fsub (x y : pyfloat) : pyfloat := fadd x (fneg y).

(** [max(a, b, c)]: the first argument that no later one exceeds. *)
Definition py_max3 (a b c : pyfloat) : pyfloat :=
  let m := if fgt b a then b else a in
  if fgt c m then c else m.

(** [range(n)] *)
Definition range (n : Z) : list Z := map Z.of_nat (seq 0 (Z.to_nat n)).

(** The calls made on the axes object [ax].  The drawing methods below
    return the calls they make, in order; the caller appends them. *)
Inductive ax_call : Type :=
| plot3D (xs ys zs : pyfloat * pyfloat) (color : string) (linewidth : Z)
| set_xlabel (label : string) (fontsize : Z)
| set_ylabel (label : string) (fontsize : Z)
| set_zlabel (label : string) (fontsize : Z)
| set_title (label : string) (fontsize : Z) (fontweight : string)
| set_xlim (low high : pyfloat)
| set_ylim (low high : pyfloat)
| set_zlim (low high : pyfloat)
| view_init (elev azim : Z).

Definition point : Type := (pyfloat * pyfloat * pyfloat)%type.

(** A [for] loop whose body draws. *)
Fixpoint for_each {A : Type} (items : list A) (body : A -> result (list ax_call))
  : result (list ax_call) :=
  match items with
  | [] => mret []
  | item :: rest =>
      calls ← body item;
      more ← for_each rest body;
      mret (calls ++ more)
  end.

(** [ax.plot3D] on the two points [p] and [q] transposed by [zip] into
    their x, y and z coordinates. *)
Definition plot_edge (p q : point) (color : string) (linewidth : Z) : ax_call :=
  plot3D (fst (fst p), fst (fst q)) (snd (fst p), snd (fst q)) (snd p, snd q)
    color linewidth.

(** The eight [width/2] and [depth/2] of the vertex list are the same two
    values; the edge indices are literals below 8. *)
Definition draw_post (x y z1 z2 width depth : pyfloat) : result (list ax_call) :=
  half_width ← py_truediv width (of_int 2);
  half_depth ← py_truediv depth (of_int 2);
  let vertices : list point :=
    [ (fsub x half_width, fsub y half_depth, z1);
      (fadd x half_width, fsub y half_depth, z1);
      (fadd x half_width, fadd y half_depth, z1);
      (fsub x half_width, fadd y half_depth, z1);
      (fsub x half_width, fsub y half_depth, z2);
      (fadd x half_width, fsub y half_depth, z2);
      (fadd x half_width, fadd y half_depth, z2);
      (fsub x half_width, fadd y half_depth, z2) ] in
  let edges : list (nat * nat) :=
    [ (0, 1); (1, 2); (2, 3); (3, 0);
      (4, 5); (5, 6); (6, 7); (7, 4);
      (0, 4); (1, 5); (2, 6); (3, 7) ]%nat in
  for_each edges (fun edge =>
    let points :=
      (nth (fst edge) vertices (x, y, z1), nth (snd edge) vertices (x, y, z1)) in
    mret [plot_edge (fst points) (snd points) "darkred" 2]).

Definition draw_rafter (x1 y1 z1 x2 y2 z2 width height : pyfloat) : list ax_call :=
  [plot3D (x1, x2) (y1, y2) (z1, z2) "peru" 3].

Definition draw_line (x1 y1 z1 x2 y2 z2 : pyfloat) (color : string)
    (linewidth : Z) : list ax_call :=
  [plot3D (x1, x2) (y1, y2) (z1, z2) color linewidth].

Section Drawing.

(** [np.sqrt], and [str] of a float for the title. *)
Variable np_sqrt : pyfloat -> pyfloat.
Variable str_float : pyfloat -> string.

(** A square [d**2] is the product [d * d].  The normalised direction and
    the midpoint that the method goes on to compute are not used and are
    left out. *)
Definition draw_beam (x1 y1 z1 x2 y2 z2 width height : pyfloat) : list ax_call :=
  let dx := fsub x2 x1 in
  let dy := fsub y2 y1 in
  let dz := fsub z2 z1 in
  let length := np_sqrt (fadd (fadd (fmul dx dx) (fmul dy dy)) (fmul dz dz)) in
  if feq length (of_int 0) then []
  else [plot3D (x1, x2) (y1, y2) (z1, z2) "saddlebrown" 3].

(** [i * self.bent_spacing]: where bent [i] stands along the length. *)
Definition bent_position (self : TimberFrameStructure.t) (i : Z) : pyfloat :=
  fmul (of_int i) (TimberFrameStructure.bent_spacing self).

(** The calls made on [ax], from the first post to [view_init].  The
    creation of the figure, the unused list [corners] and
    [plt.tight_layout()] are not represented. *)
Definition visualize_3d (self : TimberFrameStructure.t) : result (list ax_call) :=
  let a := TimberFrameStructure.given self in
  let width := TimberFrameStructure.width a in
  let wall_height := TimberFrameStructure.wall_height a in
  let ridge_height := TimberFrameStructure.ridge_height self in
  post_w ← py_truediv (of_int (fst (TimberFrameStructure.post_size self))) (of_int 12);
  post_d ← py_truediv (of_int (snd (TimberFrameStructure.post_size self))) (of_int 12);
  beam_w ← py_truediv (of_int (fst (TimberFrameStructure.beam_size self))) (of_int 12);
  beam_h ← py_truediv (of_int (snd (TimberFrameStructure.beam_size self))) (of_int 12);
  rafter_w ← py_truediv (of_int (fst (TimberFrameStructure.rafter_size self))) (of_int 12);
  rafter_h ← py_truediv (of_int (snd (TimberFrameStructure.rafter_size self))) (of_int 12);
  bents ← for_each (range (TimberFrameStructure.num_bents self)) (fun i =>
    let x_pos := bent_position self i in
    let post_positions := [(of_int 0, x_pos); (width, x_pos)] in
    posts ← for_each post_positions (fun position =>
      draw_post (fst position) (snd position) (of_int 0) wall_height post_w post_d);
    let beam :=
      draw_beam (of_int 0) x_pos wall_height width x_pos wall_height beam_w beam_h in
    half_width ← py_truediv width (of_int 2);
    let left :=
      draw_rafter (of_int 0) x_pos wall_height half_width x_pos ridge_height
        rafter_w rafter_h in
    let right :=
      draw_rafter half_width x_pos ridge_height width x_pos wall_height
        rafter_w rafter_h in
    mret (posts ++ beam ++ left ++ right));
  plates ← for_each (range (TimberFrameStructure.num_bents self - 1)) (fun i =>
    let x1 := bent_position self i in
    let x2 := bent_position self (i + 1) in
    half_width ← py_truediv width (of_int 2);
    mret (draw_line (of_int 0) x1 wall_height (of_int 0) x2 wall_height "brown" 2
          ++ draw_line width x1 wall_height width x2 wall_height "brown" 2
          ++ draw_line half_width x1 ridge_height half_width x2 ridge_height
               "brown" 2));
  let max_dim := py_max3 (TimberFrameStructure.length a) width ridge_height in
  mret (bents ++ plates ++
        [ set_xlabel "Width (ft)" 10;
          set_ylabel "Length (ft)" 10;
          set_zlabel "Height (ft)" 10;
          set_title
            ("Timber Frame Structure" ++ newline
             ++ str_float (TimberFrameStructure.length a) ++ "ft × "
             ++ str_float width ++ "ft × "
             ++ str_float wall_height ++ "ft walls" ++ newline
             ++ "Snow Load: " ++ str_float (TimberFrameStructure.snow_load a)
             ++ " psf")
            12 "bold";
          set_xlim (of_int 0) max_dim;
          set_ylim (of_int 0) max_dim;
          set_zlim (of_int 0) max_dim;
          view_init 20 45 ]).

End Drawing.

(** ** The bent layout on binary64 numbers

    Lines 121 to 126 of [calculate_dimensions] once more, on the primitive
    binary64 floats, whose division and multiplication round as Python's
    do. *)

Module Binary64.
Import PrimFloat FloatOps SpecFloat.

(** [int(x)] *)
Definition int (x : float) : result Z :=
  match Prim2SF x with
  | S754_zero _ => mret 0
  | S754_finite s m e =>
      let magnitude := if 0 <=? e then Zpos m * 2 ^ e else Zpos m / 2 ^ (- e) in
      mret (if s then - magnitude else magnitude)
  | S754_infinity _ => raise OverflowError
  | S754_nan => raise ValueError
  end.

(** An [int] operand, converted to a float. *)
Definition of_int (z : Z) : float :=
  if z <? 0 then PrimFloat.opp (of_uint63 (Uint63.of_Z (- z)))
  else of_uint63 (Uint63.of_Z z).

Definition num_bents (length : float) : result Z :=
  let ideal_spacing := 12 in
  whole_bays ← int (PrimFloat.div length (of_int ideal_spacing));
  mret (py_max 2 (whole_bays + 1)).

(** The divisor [num_bents - 1] is at least 1 under the guard. *)
Definition bent_spacing (length : float) : result float :=
  bents ← num_bents length;
  mret (if 1 <? bents
        then PrimFloat.div length (of_int (bents - 1))
        else length).



End Binary64.

(** ** Specification vocabulary *)

(** [c] is the smallest of the categories that are at least [x]. *)
Definition smallest_at_least (categories : list Z) (x : pyfloat) (c : Z) : Prop :=
  In c categories /\ fle x (of_int c) = true /\
  forall k, In k categories -> fle x (of_int k) = true -> c <= k.

(** [c] is the largest of the categories. *)
Definition largest_of (categories : list Z) (c : Z) : Prop :=
  In c categories /\ forall k, In k categories -> k <= c.

(** [x] is above every category. *)
Definition exceeds_all (categories : list Z) (x : pyfloat) : Prop :=
  forall k, In k categories -> fgt x (of_int k) = true.

(** Rounding up to a category: the smallest category at least [x] when
    there is one, hence [x] itself when [x] is a category, and the largest
    category when [x] is above them all. *)
Definition rounds_up_to (categories : list Z) (x : pyfloat) (c : Z) : Prop :=
  ((exists k, In k categories /\ fle x (of_int k) = true) ->
     smallest_at_least categories x c) /\
  (forall k, In k categories -> feq x (of_int k) = true -> c = k) /\
  (exceeds_all categories x -> largest_of categories c).

(** The value of [max(2, int(length / ideal_spacing) + 1)] for a finite
    [length]. *)
Definition bents_of (length : Q) : Z :=
  let bays := (length / inject_Z 12)%Q in
  py_max 2 (Z.quot (Qnum bays) (Zpos (Qden bays)) + 1).

(** *** Rounded arithmetic

    Division and multiplication of floats as the exact operation followed
    by a rounding [rnd]. *)


Section Rounded.

Variable rnd : Q -> Q.



End Rounded.


(** A coordinate difference on the scale of a building: nothing, or
    between a thousandth of a foot and a thousand feet. *)
Definition building_scale (d : Q) : Prop :=
  (d == 0)%Q \/ ((1 # 1000) <= Qabs d <= 1000)%Q.

(** The report has [line] as one of its lines. *)
Definition has_line (report line : string) : Prop :=
  exists before after : string,
    report = (before ++ newline ++ line ++ newline ++ after)%string.

(** A typed line holding a positive value within the bounds. *)
Definition acceptable (min_val max_val : Z) (line : typed) : Prop :=
  exists v, line = Number v /\
    flt (of_int 0) v = true /\
    fle (of_int min_val) v = true /\ fle v (of_int max_val) = true.

(** One member size is at most another in width and in depth. *)
Definition size_le (a b : member_size) : Prop :=
  fst a <= fst b /\ snd a <= snd b.

(** A call that draws a line. *)
Definition is_plot3D (call : ax_call) : Prop :=
  match call with
  | plot3D _ _ _ _ _ => True
  | _ => False
  end.

(** The loop sends the typed line back. *)
Definition refused (min_val max_val : option Z) (line : typed) : Prop :=
  exists message, validate min_val max_val line = Again message.

(** The axis a drawn line runs along: 0, 1 or 2 when its end points
    differ in the x, the y or the z coordinate alone. *)
Definition edge_axis (call : ax_call) : option nat :=
  match call with
  | plot3D (xa, xb) (ya, yb) (za, zb) _ _ =>
      match feq xa xb, feq ya yb, feq za zb with
      | false, true, true => Some 0%nat
      | true, false, true => Some 1%nat
      | true, true, false => Some 2%nat
      | _, _, _ => None
      end
  | _ => None
  end.

(** ** Facts about the number model *)

Lemma Qle_bool_false (a b : Q) : Qle_bool a b = false -> (b < a)%Q.
Proof.
  intros H. apply Qnot_le_lt. intros Hle.
  apply Qle_bool_iff in Hle. congruence.
Qed.

Ltac qprop :=
  repeat match goal with
  | H : Qle_bool _ _ = true |- _ => apply Qle_bool_iff in H
  | H : Qle_bool _ _ = false |- _ => apply Qle_bool_false in H
  | H : Qeq_bool _ _ = true |- _ => apply Qeq_bool_iff in H
  | H : Qeq_bool _ _ = false |- _ => apply Qeq_bool_neq in H
  end.

Ltac qsplit :=
  repeat match goal with
  | |- context [Qle_bool ?a ?b] => destruct (Qle_bool a b) eqn:?
  end.

Ltac qdone :=
  qprop; unfold inject_Z in *; simpl in *;
  try discriminate; try reflexivity; try lia; try lra.

(** ** Post sizes *)

(** C1.  For a snow load [L >= 0], [get_post_size] returns (6,6) on [0,30),
    (8,8) on [30,50), (10,10) on [50,70), (12,12) on [70,100) and the
    fallback (12,12) from 100 on; being a function defined on every load, it
    is deterministic and total. *)
Theorem get_post_size_ranges (L : pyfloat) :
  fle (of_int 0) L = true ->
  (flt L (of_int 30) = true ->
     TimberFrameDesigner.get_post_size L = (6, 6)) /\
  (fle (of_int 30) L = true -> flt L (of_int 50) = true ->
     TimberFrameDesigner.get_post_size L = (8, 8)) /\
  (fle (of_int 50) L = true -> flt L (of_int 70) = true ->
     TimberFrameDesigner.get_post_size L = (10, 10)) /\
  (fle (of_int 70) L = true -> flt L (of_int 100) = true ->
     TimberFrameDesigner.get_post_size L = (12, 12)) /\
  (fle (of_int 100) L = true ->
     TimberFrameDesigner.get_post_size L = (12, 12)).
Proof.
  intros H0. destruct L as [q| | |]; try discriminate.
  - revert H0. unfold TimberFrameDesigner.get_post_size. cbn.
    qsplit; cbn; intros; repeat split; intros; qdone.
  - repeat split; intros; try discriminate; reflexivity.
Qed.

(** C10.  [get_post_size] is monotone: for loads [0 <= L1 <= L2] the size
    chosen for [L1] is componentwise at most the size chosen for [L2]. *)
Theorem get_post_size_monotone (L1 L2 : pyfloat) :
  fle (of_int 0) L1 = true ->
  fle L1 L2 = true ->
  fst (TimberFrameDesigner.get_post_size L1)
    <= fst (TimberFrameDesigner.get_post_size L2) /\
  snd (TimberFrameDesigner.get_post_size L1)
    <= snd (TimberFrameDesigner.get_post_size L2).
Proof.
  destruct L1 as [a| | |], L2 as [b| | |];
    unfold TimberFrameDesigner.get_post_size; cbn;
    qsplit; cbn; intros; qdone.
Qed.

Lemma get_post_size_monotone_witness :
  fst (TimberFrameDesigner.get_post_size (of_int 20))
    <= fst (TimberFrameDesigner.get_post_size (of_int 60)) /\
  snd (TimberFrameDesigner.get_post_size (of_int 20))
    <= snd (TimberFrameDesigner.get_post_size (of_int 60)).
Proof.
  apply (get_post_size_monotone (of_int 20) (of_int 60)); reflexivity.
Defined.

Lemma get_post_size_ranges_witness :
  TimberFrameDesigner.get_post_size (of_int 40) = (8, 8).
Proof.
  apply (get_post_size_ranges (of_int 40)); reflexivity.
Defined.

(** ** Classification into categories *)

Lemma fle_fgt_false (x y : pyfloat) : fle x y = true -> fgt x y = true -> False.
Proof.
  destruct x, y; cbn; try discriminate.
  intros H. rewrite H. discriminate.
Qed.

Lemma feq_fle (x y : pyfloat) : feq x y = true -> fle x y = true.
Proof.
  destruct x, y; cbn; try discriminate; try reflexivity.
  intros H. apply Qle_bool_iff. apply Qeq_bool_iff in H. lra.
Qed.

Lemma feq_fle_int (x : pyfloat) (k m : Z) :
  feq x (of_int k) = true -> fle x (of_int m) = true -> k <= m.
Proof.
  destruct x as [q| | |]; cbn; try discriminate.
  intros Hk Hm. qprop. rewrite Zle_Qle. lra.
Qed.

Lemma fold_left_min_le (l : list Z) (a : Z) :
  fold_left Z.min l a <= a /\ forall k, In k l -> fold_left Z.min l a <= k.
Proof.
  revert a. induction l as [|b l IH]; intros a; cbn.
  - split; [lia | tauto].
  - destruct (IH (Z.min a b)) as [H1 H2]. split; [lia |].
    intros k [<- | Hk]; [lia | auto].
Qed.

Lemma fold_left_min_in (l : list Z) (a : Z) : In (fold_left Z.min l a) (a :: l).
Proof.
  revert a. induction l as [|b l IH]; intros a; cbn.
  - now left.
  - destruct (IH (Z.min a b)) as [H | H].
    + rewrite <- H. destruct (Z.min_spec a b) as [[_ ->] | [_ ->]]; auto.
    + auto.
Qed.

(** The comprehension and [min] never raise: the default covers the
    empty comprehension. *)
Lemma classify_total (categories : list Z) (d : Z) (x : pyfloat) :
  TimberFrameDesigner.classify categories d x =
    inr match List.filter (fun c => fle x (of_int c)) categories with
        | [] => d
        | y :: ys => fold_left Z.min ys y
        end.
Proof.
  unfold TimberFrameDesigner.classify.
  now destruct (List.filter _ categories).
Qed.

Lemma classify_in (categories : list Z) (d : Z) (x : pyfloat) :
  exists c, TimberFrameDesigner.classify categories d x = inr c /\
            In c (d :: categories).
Proof.
  rewrite classify_total. eexists. split; [reflexivity |].
  destruct (List.filter _ categories) as [|y ys] eqn:E; [now left |].
  right. pose proof (fold_left_min_in ys y) as H.
  rewrite <- E in H. apply filter_In in H. tauto.
Qed.

Lemma classify_rounds_up (categories : list Z) (d : Z) (x : pyfloat) :
  largest_of categories d ->
  exists c, TimberFrameDesigner.classify categories d x = inr c /\
            rounds_up_to categories x c.
Proof.
  intros Hd. rewrite classify_total. eexists. split; [reflexivity |].
  destruct (List.filter _ categories) as [|y ys] eqn:E.
  - assert (Hnone : forall k, In k categories -> fle x (of_int k) = true -> False).
    { intros k Hk Hle.
      assert (In k (List.filter (fun c => fle x (of_int c)) categories)) as Hin
        by (apply filter_In; auto).
      rewrite E in Hin. destruct Hin. }
    repeat split.
    + destruct H as (k & Hk & Hle). destruct (Hnone k Hk Hle).
    + destruct H as (k & Hk & Hle). destruct (Hnone k Hk Hle).
    + destruct H as (k & Hk & Hle). destruct (Hnone k Hk Hle).
    + intros k Hk Heq. destruct (Hnone k Hk (feq_fle _ _ Heq)).
    + apply Hd.
    + apply Hd.
  - set (m := fold_left Z.min ys y).
    assert (Hm : In m categories /\ fle x (of_int m) = true).
    { pose proof (fold_left_min_in ys y) as H. rewrite <- E in H.
      apply filter_In in H. exact H. }
    assert (Hleast : forall k, In k categories -> fle x (of_int k) = true -> m <= k).
    { intros k Hk Hle.
      assert (In k (y :: ys)) as Hin by (rewrite <- E; apply filter_In; auto).
      destruct (fold_left_min_le ys y) as [H1 H2].
      destruct Hin as [<- | Hin]; [exact H1 | exact (H2 k Hin)]. }
    destruct Hm as [Hin Hle]. split; [| split].
    + intros _. repeat split; assumption.
    + intros k Hk Heq.
      pose proof (Hleast k Hk (feq_fle _ _ Heq)).
      pose proof (feq_fle_int x k m Heq Hle). lia.
    + intros Hall. destruct (fle_fgt_false _ _ Hle (Hall m Hin)).
Qed.

Lemma largest_beam_span : largest_of [16; 24; 32; 40] 40.
Proof. split; cbn; [tauto | intros k H; lia]. Qed.

Lemma largest_rafter_span : largest_of [16; 24] 24.
Proof. split; cbn; [tauto | intros k H; lia]. Qed.

Lemma largest_load : largest_of [30; 50; 70; 100] 100.
Proof. split; cbn; [tauto | intros k H; lia]. Qed.

(** ** Beam and rafter sizes *)

(** C2.  For every span and load, [get_beam_size] and [get_rafter_size]
    return without raising, and the size they return is the table entry
    (or fallback) for the span and load rounded up to a category: the
    smallest category at least the input, the input itself when it is a
    category, the largest category when the input exceeds them all. *)
Theorem size_selectors_round_up (span_ft snow_load : pyfloat) :
  exists beam_span rafter_span load_cat : Z,
    rounds_up_to [16; 24; 32; 40] span_ft beam_span /\
    rounds_up_to [16; 24] span_ft rafter_span /\
    rounds_up_to [30; 50; 70; 100] snow_load load_cat /\
    TimberFrameDesigner.get_beam_size span_ft snow_load =
      inr (dict_get TimberFrameDesigner.beam_sizes (beam_span, load_cat) (12, 18)) /\
    TimberFrameDesigner.get_rafter_size span_ft snow_load =
      inr (dict_get TimberFrameDesigner.rafter_sizes (rafter_span, load_cat) (8, 14)).
Proof.
  destruct (classify_rounds_up _ _ span_ft largest_beam_span) as (bs & Ebs & Hbs).
  destruct (classify_rounds_up _ _ span_ft largest_rafter_span) as (rs & Ers & Hrs).
  destruct (classify_rounds_up _ _ snow_load largest_load) as (lc & Elc & Hlc).
  exists bs, rs, lc.
  split; [exact Hbs |]. split; [exact Hrs |]. split; [exact Hlc |]. split.
  - unfold TimberFrameDesigner.get_beam_size. cbv zeta.
    rewrite Ebs, Elc. reflexivity.
  - unfold TimberFrameDesigner.get_rafter_size. cbv zeta.
    rewrite Ers, Elc. reflexivity.
Qed.

(** C3.  [get_beam_size(16, 30)] is (6,10), and [get_beam_size(20, 45)] is
    (8,14), the span 20 falling in category 24 and the load 45 in
    category 50. *)
Theorem get_beam_size_examples :
  TimberFrameDesigner.get_beam_size (of_int 16) (of_int 30) = inr (6, 10) /\
  TimberFrameDesigner.get_beam_size (of_int 20) (of_int 45) = inr (8, 14) /\
  TimberFrameDesigner.classify [16; 24; 32; 40] 40 (of_int 20) = inr 24 /\
  TimberFrameDesigner.classify [30; 50; 70; 100] 100 (of_int 45) = inr 50 /\
  TimberFrameDesigner.beam_sizes !! (24, 50) = Some (8, 14).
Proof. repeat split; vm_compute; reflexivity. Qed.

(** C9.  The category pair that [get_beam_size] looks up is a key of the
    beam table and the pair that [get_rafter_size] looks up is a key of the
    rafter table: the size returned is the table's entry, and the default
    of [dict.get] is not used. *)
Theorem size_lookups_hit (span_ft snow_load : pyfloat) :
  (exists span_cat load_cat size,
     TimberFrameDesigner.classify [16; 24; 32; 40] 40 span_ft = inr span_cat /\
     TimberFrameDesigner.classify [30; 50; 70; 100] 100 snow_load = inr load_cat /\
     TimberFrameDesigner.beam_sizes !! (span_cat, load_cat) = Some size /\
     TimberFrameDesigner.get_beam_size span_ft snow_load = inr size) /\
  (exists span_cat load_cat size,
     TimberFrameDesigner.classify [16; 24] 24 span_ft = inr span_cat /\
     TimberFrameDesigner.classify [30; 50; 70; 100] 100 snow_load = inr load_cat /\
     TimberFrameDesigner.rafter_sizes !! (span_cat, load_cat) = Some size /\
     TimberFrameDesigner.get_rafter_size span_ft snow_load = inr size).
Proof.
  destruct (classify_in [16; 24; 32; 40] 40 span_ft) as (bs & Ebs & Hbs).
  destruct (classify_in [16; 24] 24 span_ft) as (rs & Ers & Hrs).
  destruct (classify_in [30; 50; 70; 100] 100 snow_load) as (lc & Elc & Hlc).
  split.
  - exists bs, lc.
    assert (Hkey : is_Some (TimberFrameDesigner.beam_sizes !! (bs, lc))).
    { cbn in Hbs, Hlc.
      repeat (destruct Hbs as [<- | Hbs]; [| try contradiction]);
      repeat (destruct Hlc as [<- | Hlc]; [| try contradiction]);
      vm_compute; eauto. }
    destruct Hkey as [size Hsize]. exists size. repeat split; try assumption.
    unfold TimberFrameDesigner.get_beam_size, dict_get. cbv zeta.
    rewrite Ebs, Elc. unfold mbind, result_bind. rewrite Hsize. reflexivity.
  - exists rs, lc.
    assert (Hkey : is_Some (TimberFrameDesigner.rafter_sizes !! (rs, lc))).
    { cbn in Hrs, Hlc.
      repeat (destruct Hrs as [<- | Hrs]; [| try contradiction]);
      repeat (destruct Hlc as [<- | Hlc]; [| try contradiction]);
      vm_compute; eauto. }
    destruct Hkey as [size Hsize]. exists size. repeat split; try assumption.
    unfold TimberFrameDesigner.get_rafter_size, dict_get. cbv zeta.
    rewrite Ers, Elc. unfold mbind, result_bind. rewrite Hsize. reflexivity.
Qed.

(** ** Derived geometry *)

Lemma py_max_spec (a b : Z) : py_max a b = Z.max a b.
Proof. unfold py_max. destruct (Z.ltb_spec a b); lia. Qed.

Lemma feq_int_zero (k : Z) : k <> 0 -> feq (of_int k) (of_int 0) = false.
Proof.
  intros Hk. cbn. destruct (Qeq_bool _ _) eqn:E; [| reflexivity].
  apply Qeq_bool_iff in E. apply (inject_Z_injective k 0) in E. contradiction.
Qed.

(** Dividing by a non-zero integer constant does not raise. *)
Lemma py_truediv_int (x : pyfloat) (k : Z) :
  k <> 0 -> exists y, py_truediv x (of_int k) = inr y.
Proof.
  intros Hk. unfold py_truediv. rewrite (feq_int_zero k Hk). eauto.
Qed.

Lemma py_truediv_finite (q : Q) (k : Z) :
  k <> 0 -> py_truediv (Finite q) (of_int k) = inr (Finite (q / inject_Z k)).
Proof.
  intros Hk. unfold py_truediv. rewrite (feq_int_zero k Hk). reflexivity.
Qed.

(** Truncation toward zero is the floor on non-negative values. *)
Lemma quot_floor (q : Q) :
  (0 <= q)%Q -> Z.quot (Qnum q) (Zpos (Qden q)) = Qfloor q.
Proof.
  destruct q as [n d]. unfold Qle. cbn. intros H.
  apply Z.quot_div_nonneg; lia.
Qed.

Lemma py_int_floor (q : Q) : (0 <= q)%Q -> py_int (Finite q) = inr (Qfloor q).
Proof. intros H. unfold py_int. now rewrite (quot_floor q H). Qed.

Lemma get_beam_size_total (span_ft snow_load : pyfloat) :
  exists size, TimberFrameDesigner.get_beam_size span_ft snow_load = inr size.
Proof.
  unfold TimberFrameDesigner.get_beam_size. cbv zeta.
  rewrite !classify_total. eexists. reflexivity.
Qed.

Lemma get_rafter_size_total (span_ft snow_load : pyfloat) :
  exists size, TimberFrameDesigner.get_rafter_size span_ft snow_load = inr size.
Proof.
  unfold TimberFrameDesigner.get_rafter_size. cbv zeta.
  rewrite !classify_total. eexists. reflexivity.
Qed.

Lemma bents_of_ge_2 (q : Q) : 2 <= bents_of q.
Proof. unfold bents_of. rewrite py_max_spec. lia. Qed.

(** With a finite length the constructor returns, and this is the object. *)
Lemma calculate_dimensions_finite (self : TimberFrameStructure.args) (q : Q) :
  TimberFrameStructure.length self = Finite q ->
  exists beam rafter half_width,
    py_truediv (TimberFrameStructure.width self) (of_int 2) = inr half_width /\
    TimberFrameStructure.calculate_dimensions self =
      inr (TimberFrameStructure.Structure self
             (TimberFrameDesigner.get_post_size (TimberFrameStructure.snow_load self))
             beam rafter
             (fadd (TimberFrameStructure.wall_height self)
                   (fmul half_width (TimberFrameStructure.roof_pitch self)))
             (bents_of q)
             (Finite (q / inject_Z (bents_of q - 1)))).
Proof.
  intros Hlen.
  destruct (get_beam_size_total (TimberFrameStructure.width self)
              (TimberFrameStructure.snow_load self)) as [beam Hbeam].
  destruct (py_truediv_int (TimberFrameStructure.width self) 2 ltac:(lia))
    as [half Hhalf].
  destruct (get_rafter_size_total half (TimberFrameStructure.snow_load self))
    as [rafter Hrafter].
  exists beam, rafter, half. split; [exact Hhalf |].
  unfold TimberFrameStructure.calculate_dimensions. cbv zeta.
  rewrite Hbeam, Hhalf. unfold mbind at 1 2 3 4, result_bind.
  rewrite Hrafter, Hlen.
  rewrite (py_truediv_finite q 12 ltac:(lia)). unfold py_int.
  unfold mbind, result_bind, mret, result_ret.
  change (py_max 2 _) with (bents_of q).
  pose proof (bents_of_ge_2 q) as Hge.
  destruct (Z.ltb_spec 1 (bents_of q)) as [_ | Hlt]; [| lia].
  rewrite (py_truediv_finite q (bents_of q - 1) ltac:(lia)). reflexivity.
Qed.

(** C4.  For a valid length, [10 <= length <= 100], the structure is built
    and its number of bents is [max(2, int(length / 12) + 1)], the
    truncation being the floor of the quotient; it is an integer from 2
    up. *)
Theorem num_bents_formula (self : TimberFrameStructure.args) (q : Q) :
  TimberFrameStructure.length self = Finite q ->
  (10 <= q <= 100)%Q ->
  exists st,
    TimberFrameStructure.calculate_dimensions self = inr st /\
    TimberFrameStructure.num_bents st = Z.max 2 (Qfloor (q / 12) + 1) /\
    2 <= TimberFrameStructure.num_bents st.
Proof.
  intros Hlen [Hlo Hhi].
  destruct (calculate_dimensions_finite self q Hlen)
    as (beam & rafter & half & _ & Hst).
  eexists. split; [exact Hst |]. cbn.
  split; [| apply bents_of_ge_2].
  unfold bents_of. cbv zeta. rewrite py_max_spec.
  assert (Hq : (0 <= q / inject_Z 12)%Q).
  { apply Qle_shift_div_l; [reflexivity | lra]. }
  rewrite (quot_floor _ Hq). reflexivity.
Qed.

Lemma num_bents_formula_witness :
  exists st,
    TimberFrameStructure.calculate_dimensions
      (TimberFrameStructure.Args (of_int 40) (of_int 30) (of_int 10)
         (Finite (1 # 2)) (of_int 40)) = inr st /\
    TimberFrameStructure.num_bents st = Z.max 2 (Qfloor (inject_Z 40 / 12) + 1) /\
    2 <= TimberFrameStructure.num_bents st.
Proof.
  apply (num_bents_formula
           (TimberFrameStructure.Args (of_int 40) (of_int 30) (of_int 10)
              (Finite (1 # 2)) (of_int 40)) (inject_Z 40)).
  - reflexivity.
  - split; unfold Qle; simpl; lia.
Defined.







(** ** The report *)

Lemma string_app_assoc (a b c : string) : ((a ++ b) ++ c = a ++ (b ++ c))%string.
Proof.
  induction a as [|ch a IH]; [reflexivity |].
  change (String ch ((a ++ b) ++ c) = String ch (a ++ b ++ c))%string.
  now rewrite IH.
Qed.

Lemma concat_cons (sep x y : string) (l : list string) :
  String.concat sep (x :: y :: l) = (x ++ sep ++ String.concat sep (y :: l))%string.
Proof. reflexivity. Qed.

(** A line strictly inside the list of lines is a line of the joined text. *)
Lemma has_line_concat (l1 l2 : list string) (x : string) :
  l1 <> [] -> l2 <> [] ->
  has_line (String.concat newline (l1 ++ x :: l2)) x.
Proof.
  intros H1 H2. induction l1 as [|a l1 IH]; [contradiction |].
  destruct l1 as [|b l1].
  - destruct l2 as [|c l2]; [contradiction |].
    exists a, (String.concat newline (c :: l2)).
    cbn [app]. now rewrite !concat_cons.
  - destruct IH as (before & after & E); [discriminate |].
    exists (a ++ newline ++ before)%string, after.
    change ((a :: b :: l1) ++ x :: l2) with (a :: b :: (l1 ++ x :: l2)).
    rewrite concat_cons. change (b :: l1 ++ x :: l2) with ((b :: l1) ++ x :: l2).
    rewrite E. now rewrite !string_app_assoc.
Qed.

Lemma has_line_nth (lines : list string) (n : nat) (x : string) :
  nth_error lines n = Some x ->
  (0 < n)%nat -> (S n < List.length lines)%nat ->
  has_line (String.concat newline lines) x.
Proof.
  intros Hn Hpos Hlast.
  destruct (nth_error_split lines n Hn) as (l1 & l2 & -> & Hlen).
  apply has_line_concat.
  - intros ->. cbn in Hlen. lia.
  - intros ->. rewrite length_app in Hlast. cbn in Hlast. lia.
Qed.

Section ReportFacts.

Variable np_cos np_arctan : pyfloat -> pyfloat.
Variable np_true_divide : pyfloat -> pyfloat -> pyfloat.
Variable str_float : pyfloat -> string.
Variable format_f : nat -> pyfloat -> string.

(** The plate count of the report for a finite length. *)
Lemma plate_pieces_finite (st : TimberFrameStructure.t) (l : Q) :
  TimberFrameStructure.length (TimberFrameStructure.given st) = Finite l ->
  TimberFrameStructure.plate_pieces st = inr (Qceiling (l * 2 / 16)).
Proof.
  intros Hl. unfold TimberFrameStructure.plate_pieces. rewrite Hl.
  cbn [fmul of_int]. rewrite (py_truediv_finite _ 16 ltac:(lia)).
  unfold mbind, result_bind, np_ceil, py_int, mret, result_ret.
  cbn [Qnum Qden inject_Z]. now rewrite Z.quot_1_r.
Qed.

(** The rafter length of the report for a finite width. *)
Lemma rafter_length_finite (st : TimberFrameStructure.t) (w : Q) :
  TimberFrameStructure.width (TimberFrameStructure.given st) = Finite w ->
  TimberFrameStructure.rafter_length np_cos np_arctan np_true_divide st =
    inr (np_true_divide (Finite (w / 2))
           (np_cos (np_arctan
              (TimberFrameStructure.roof_pitch (TimberFrameStructure.given st))))).
Proof.
  intros Hw. unfold TimberFrameStructure.rafter_length. rewrite Hw.
  rewrite (py_truediv_finite w 2 ltac:(lia)). reflexivity.
Qed.

(** C7.  For a structure built from finite dimensions, the report is
    produced, as a string, and among its lines are: the post count
    [2 * num_bents], the beam count [num_bents], the rafter count
    [2 * num_bents] with the rafter length [(width / 2) / cos(atan(pitch))],
    and the plate count [ceil(length * 2 / 16)].  The report is a function
    of the structure alone and leaves it as it was. *)
Theorem report_material_quantities
    (self : TimberFrameStructure.args) (l w : Q) (st : TimberFrameStructure.t) :
  TimberFrameStructure.length self = Finite l ->
  TimberFrameStructure.width self = Finite w ->
  TimberFrameStructure.calculate_dimensions self = inr st ->
  exists report,
    TimberFrameStructure.get_structure_report
      np_cos np_arctan np_true_divide str_float format_f st = inr report /\
    has_line report
      ("  Posts:         " ++ str_int (2 * TimberFrameStructure.num_bents st)
         ++ " pieces @ " ++ str_float (TimberFrameStructure.wall_height self)
         ++ " ft") /\
    has_line report
      ("  Beams:         " ++ str_int (TimberFrameStructure.num_bents st)
         ++ " pieces @ " ++ str_float (TimberFrameStructure.width self)
         ++ " ft") /\
    has_line report
      ("  Rafters:       " ++ str_int (2 * TimberFrameStructure.num_bents st)
         ++ " pieces @ "
         ++ format_f 1
              (np_true_divide (Finite (w / 2))
                 (np_cos (np_arctan (TimberFrameStructure.roof_pitch self))))
         ++ " ft") /\
    has_line report
      ("  Plates:        " ++ str_int (Qceiling (l * 2 / 16))
         ++ " pieces @ 16 ft (both walls)").
Proof.
  intros Hl Hw Hst.
  destruct (calculate_dimensions_finite self l Hl)
    as (beam & rafter & half & Hhalf & Hst').
  rewrite Hst' in Hst. injection Hst as <-. clear Hst'.
  rewrite Hw in Hhalf. rewrite (py_truediv_finite w 2 ltac:(lia)) in Hhalf.
  injection Hhalf as <-.
  unfold TimberFrameStructure.get_structure_report.
  rewrite plate_pieces_finite with (l := l) by exact Hl.
  rewrite rafter_length_finite with (w := w) by exact Hw.
  cbn [TimberFrameStructure.given TimberFrameStructure.num_bents].
  unfold mbind, result_bind, mret, result_ret.
  eexists. split; [reflexivity |].
  replace (2 * bents_of l) with (bents_of l * 2) by lia.
  repeat split.
  - apply (has_line_nth _ 25); [reflexivity | lia | cbn; lia].
  - apply (has_line_nth _ 26); [reflexivity | lia | cbn; lia].
  - apply (has_line_nth _ 27); [reflexivity | lia | cbn; lia].
  - apply (has_line_nth _ 28); [reflexivity | lia | cbn; lia].
Qed.

End ReportFacts.

Lemma report_material_quantities_witness :
  exists report,
    TimberFrameStructure.get_structure_report
      (fun x => x) (fun x => x) (fun x _ => x) (fun _ => "-"%string)
      (fun _ _ => "-"%string)
      (TimberFrameStructure.Structure
         (TimberFrameStructure.Args (of_int 40) (of_int 30) (of_int 10)
            (Finite (1 # 2)) (of_int 40))
         (8, 8) (10, 16) (6, 8) (Finite (70 # 4)) 4 (Finite (40 # 3)))
      = inr report /\
    has_line report "  Posts:         8 pieces @ - ft" /\
    has_line report "  Beams:         4 pieces @ - ft" /\
    has_line report "  Rafters:       8 pieces @ - ft" /\
    has_line report "  Plates:        5 pieces @ 16 ft (both walls)".
Proof.
  apply (report_material_quantities
           (fun x => x) (fun x => x) (fun x _ => x) (fun _ => "-"%string)
           (fun _ _ => "-"%string)
           (TimberFrameStructure.Args (of_int 40) (of_int 30) (of_int 10)
              (Finite (1 # 2)) (of_int 40))
           (inject_Z 40) (inject_Z 30)
           (TimberFrameStructure.Structure
              (TimberFrameStructure.Args (of_int 40) (of_int 30) (of_int 10)
                 (Finite (1 # 2)) (of_int 40))
              (8, 8) (10, 16) (6, 8) (Finite (70 # 4)) 4 (Finite (40 # 3))));
    reflexivity.
Defined.

(** ** The prompt loop *)

Lemma flt_fle_false (x y : pyfloat) : flt x y = true -> fle y x = false.
Proof.
  destruct x, y; cbn; try discriminate; try reflexivity.
  now destruct (Qle_bool _ _).
Qed.

Lemma fle_flt_false (x y : pyfloat) : fle x y = true -> flt y x = false.
Proof.
  destruct x, y; cbn; try discriminate; try reflexivity.
  now intros ->.
Qed.

(** Apart from NaN, the order is total. *)
Lemma fle_false_flt (x y : pyfloat) :
  x <> NaN -> y <> NaN -> fle x y = false -> flt y x = true.
Proof.
  destruct x, y; cbn; try discriminate; try reflexivity; try congruence.
  now intros _ _ ->.
Qed.

Lemma flt_false_fle (x y : pyfloat) :
  x <> NaN -> y <> NaN -> flt x y = false -> fle y x = true.
Proof.
  destruct x, y; cbn; try discriminate; try reflexivity; try congruence.
  intros _ _. now destruct (Qle_bool _ _).
Qed.

(** What the loop sends back for another try: text that is not a number,
    zero and negative values, values below [min_val], values above
    [max_val]. *)
Lemma validate_again (min_val max_val : Z) (line : typed) :
  (exists message, validate (Some min_val) (Some max_val) line = Again message) <->
  line = NotANumber \/
  exists v, line = Number v /\
    (fle v (of_int 0) = true \/ flt v (of_int min_val) = true \/
     fgt v (of_int max_val) = true).
Proof.
  destruct line as [|v]; unfold validate, below, above.
  - split; [auto | eauto].
  - destruct (fle v (of_int 0)) eqn:E0;
      [split; [intros _; right; exists v; auto | eauto] |].
    destruct (flt v (of_int min_val)) eqn:E1;
      [split; [intros _; right; exists v; auto | eauto] |].
    destruct (fgt v (of_int max_val)) eqn:E2;
      [split; [intros _; right; exists v; auto | eauto] |].
    split.
    + intros [message H]. discriminate.
    + intros [H | (v' & [= <-] & H)]; [discriminate |].
      rewrite E0, E1, E2 in H. intuition discriminate.
Qed.

(** What the loop returns: a positive value within the bounds, or NaN. *)
Lemma validate_return (min_val max_val : Z) (line : typed) (v : pyfloat) :
  validate (Some min_val) (Some max_val) line = Return v <->
  line = Number v /\ (v = NaN \/ acceptable min_val max_val line).
Proof.
  split.
  - destruct line as [|v0]; unfold validate, below, above; [discriminate |].
    destruct (fle v0 (of_int 0)) eqn:E0; [discriminate |].
    destruct (flt v0 (of_int min_val)) eqn:E1; [discriminate |].
    destruct (fgt v0 (of_int max_val)) eqn:E2; [discriminate |].
    intros [= <-]. split; [reflexivity |].
    assert (Hnan : v0 = NaN \/ v0 <> NaN)
      by (destruct v0; auto; right; discriminate).
    destruct Hnan as [-> | Hnan]; [now left | right].
    exists v0. split; [reflexivity |]. repeat split.
    + apply fle_false_flt; [assumption | discriminate | assumption].
    + apply flt_false_fle; [assumption | discriminate | assumption].
    + apply flt_false_fle; [discriminate | assumption | assumption].
  - intros [-> [-> | (v' & [= <-] & Hpos & Hmin & Hmax)]]; [reflexivity |].
    unfold validate, below, above, fgt.
    now rewrite (flt_fle_false _ _ Hpos), (fle_flt_false _ _ Hmin),
      (fle_flt_false _ _ Hmax).
Qed.

(** The loop goes past the lines it sends back, writing the prompt and a
    message for each, and returns at the first line it does not. *)
Lemma get_positive_float_loop_skips (prompt : string) (min_val max_val : option Z)
    (refused : list typed) (line : typed) (rest : list typed)
    (written : list string) (v : pyfloat) :
  Forall (fun l => exists message, validate min_val max_val l = Again message)
    refused ->
  validate min_val max_val line = Return v ->
  exists messages,
    List.length messages = List.length refused /\
    get_positive_float_loop prompt min_val max_val
      (refused ++ line :: rest) written =
    (inr v,
     Console rest
       (written ++ flat_map (fun m => [prompt; m]) messages ++ [prompt])).
Proof.
  intros Hrefused Hline. revert written.
  induction Hrefused as [|l refused [message Hl] _ IH]; intros written.
  - exists []. split; [reflexivity |]. cbn. now rewrite Hline.
  - destruct (IH (written ++ [prompt; message])) as (messages & Hlen & E).
    exists (message :: messages). split; [cbn; lia |].
    cbn. rewrite Hl, E. now rewrite <- List.app_assoc.
Qed.

(** X12.  When no NaN is typed, the loop returns the first value that is
    positive and within the bounds, leaving the lines after it unread. *)
Lemma get_positive_float_first_acceptable (prompt : string) (min_val max_val : Z)
    (before : list typed) (v : pyfloat) (after : list typed)
    (written : list string) :
  Forall (fun l => ~ acceptable min_val max_val l /\ l <> Number NaN) before ->
  acceptable min_val max_val (Number v) ->
  exists written',
    get_positive_float prompt (Some min_val) (Some max_val)
      (Console (before ++ Number v :: after) written) =
    (inr v, Console after written').
Proof.
  intros Hbefore Hv.
  assert (Hrefused :
    Forall (fun l => exists message,
              validate (Some min_val) (Some max_val) l = Again message) before).
  { eapply Forall_impl; [| exact Hbefore]. intros l [Hno Hnan].
    destruct (validate (Some min_val) (Some max_val) l) as [v0 | message] eqn:E;
      [| eauto].
    apply validate_return in E. destruct E as [-> [-> | Hacc]]; contradiction. }
  assert (Hret : validate (Some min_val) (Some max_val) (Number v) = Return v).
  { apply validate_return. auto. }
  destruct (get_positive_float_loop_skips prompt _ _ before _ after written v
              Hrefused Hret) as (messages & _ & E).
  eexists. unfold get_positive_float. cbn [keyboard screen]. exact E.
Qed.

(** C8.  At the length prompt, bounds 10 and 100, the typed lines [nan]
    and [20]: the loop returns NaN at once and leaves [20] unread, although
    NaN is neither positive nor within the bounds and 20 is both. *)
Theorem get_positive_float_returns_nan :
  get_positive_float "Enter building length (feet): " (Some 10) (Some 100)
    (Console [Number NaN; Number (of_int 20)] []) =
  (inr NaN,
   Console [Number (of_int 20)] ["Enter building length (feet): "%string]) /\
  ~ acceptable 10 100 (Number NaN) /\
  acceptable 10 100 (Number (of_int 20)).
Proof.
  split; [reflexivity |]. split.
  - intros (v & [= <-] & Hpos & _). discriminate.
  - exists (of_int 20). repeat split.
Qed.

Section MainFacts.

Variable np_cos np_arctan : pyfloat -> pyfloat.
Variable np_true_divide : pyfloat -> pyfloat -> pyfloat.
Variable str_float : pyfloat -> string.
Variable format_f : nat -> pyfloat -> string.

(** A NaN typed at any prompt is taken as the answer. *)
Lemma get_positive_float_nan (prompt : string) (min_val max_val : option Z)
    (rest : list typed) (written : list string) :
  get_positive_float prompt min_val max_val (Console (Number NaN :: rest) written) =
  (inr NaN, Console rest (written ++ [prompt])).
Proof. destruct min_val, max_val; reflexivity. Qed.

(** With [nan] typed for the length and valid answers after it, [main]
    reads all five answers and then stops with the [ValueError] that
    [int] raises in [calculate_dimensions]; no report is printed. *)
Lemma main_nan_length_raises :
  fst (main np_cos np_arctan np_true_divide str_float format_f
         (Console [Number NaN; Number (of_int 30); Number (of_int 10);
                   Number (of_int 6); Number (of_int 40)] []))
  = inl ValueError.
Proof. vm_compute. reflexivity. Qed.

End MainFacts.

(** ** Further facts: size selection *)

Lemma fle_trans (x y z : pyfloat) :
  fle x y = true -> fle y z = true -> fle x z = true.
Proof.
  destruct x, y, z; cbn; try discriminate; try reflexivity.
  intros H1 H2. qprop. apply Qle_bool_iff. lra.
Qed.

Lemma fle_int (a b : Z) : fle (of_int a) (of_int b) = true <-> a <= b.
Proof.
  cbn. rewrite Qle_bool_iff, <- Zle_Qle. reflexivity.
Qed.

(** X1.  Outside every bucket (a negative load, minus infinity, NaN) the post
    is the largest one. *)
Theorem get_post_size_below_range (L : pyfloat) :
  fle (of_int 0) L = false ->
  TimberFrameDesigner.get_post_size L = (12, 12).
Proof.
  destruct L as [q| | |]; try discriminate; try reflexivity.
  unfold TimberFrameDesigner.get_post_size. cbn.
  qsplit; cbn; intros; qdone.
Qed.

Lemma get_post_size_below_range_witness :
  TimberFrameDesigner.get_post_size (of_int (-5)) = (12, 12) /\
  TimberFrameDesigner.get_post_size NaN = (12, 12).
Proof.
  split.
  - apply (get_post_size_below_range (of_int (-5))). reflexivity.
  - apply (get_post_size_below_range NaN). reflexivity.
Defined.

(** The category grows with the input. *)
Lemma classify_monotone (categories : list Z) (d : Z) (x1 x2 : pyfloat) (c1 c2 : Z) :
  largest_of categories d ->
  fle x1 x2 = true ->
  TimberFrameDesigner.classify categories d x1 = inr c1 ->
  TimberFrameDesigner.classify categories d x2 = inr c2 ->
  c1 <= c2.
Proof.
  intros Hd Hle E1 E2.
  destruct (classify_in categories d x1) as (c1' & E1' & Hin1).
  rewrite E1 in E1'. injection E1' as <-.
  destruct (classify_rounds_up categories d x1 Hd) as (c1' & E1' & Hup1 & _).
  rewrite E1 in E1'. injection E1' as <-.
  rewrite classify_total in E2. injection E2 as <-.
  destruct (List.filter _ categories) as [|y ys] eqn:E.
  - destruct Hin1 as [<- | Hin1]; [lia | apply Hd, Hin1].
  - pose proof (fold_left_min_in ys y) as Hm. rewrite <- E in Hm.
    apply filter_In in Hm. destruct Hm as [Hin2 Hle2].
    apply Hup1.
    + eexists. split; [exact Hin2 |]. eapply fle_trans; eassumption.
    + exact Hin2.
    + eapply fle_trans; eassumption.
Qed.

(** Both tables grow along their rows and columns. *)
Lemma beam_sizes_monotone (s1 s2 l1 l2 : Z) :
  In s1 [16; 24; 32; 40] -> In s2 [16; 24; 32; 40] ->
  In l1 [30; 50; 70; 100] -> In l2 [30; 50; 70; 100] ->
  s1 <= s2 -> l1 <= l2 ->
  size_le (dict_get TimberFrameDesigner.beam_sizes (s1, l1) (12, 18))
          (dict_get TimberFrameDesigner.beam_sizes (s2, l2) (12, 18)).
Proof.
  cbn [In]. intros Hs1 Hs2 Hl1 Hl2 Hs Hl.
  repeat match goal with H : _ \/ _ |- _ => destruct H as [<- | H] end;
    try contradiction; try lia; vm_compute; split; discriminate.
Qed.

Lemma rafter_sizes_monotone (s1 s2 l1 l2 : Z) :
  In s1 [16; 24] -> In s2 [16; 24] ->
  In l1 [30; 50; 70; 100] -> In l2 [30; 50; 70; 100] ->
  s1 <= s2 -> l1 <= l2 ->
  size_le (dict_get TimberFrameDesigner.rafter_sizes (s1, l1) (8, 14))
          (dict_get TimberFrameDesigner.rafter_sizes (s2, l2) (8, 14)).
Proof.
  cbn [In]. intros Hs1 Hs2 Hl1 Hl2 Hs Hl.
  repeat match goal with H : _ \/ _ |- _ => destruct H as [<- | H] end;
    try contradiction; try lia; vm_compute; split; discriminate.
Qed.

(** A category that comes out of [classify] is one of the list: the
    default of each call is itself in its list. *)
Lemma classify_member (categories : list Z) (d : Z) (x : pyfloat) (c : Z) :
  In d categories ->
  TimberFrameDesigner.classify categories d x = inr c -> In c categories.
Proof.
  intros Hd E. destruct (classify_in categories d x) as (c' & E' & Hin).
  rewrite E in E'. injection E' as <-. destruct Hin as [<- | Hin]; assumption.
Qed.

(** Both selectors, in terms of the categories they compute. *)
Lemma selectors_by_category (span_ft snow_load : pyfloat) :
  exists beam_span rafter_span load_cat : Z,
    TimberFrameDesigner.classify [16; 24; 32; 40] 40 span_ft = inr beam_span /\
    TimberFrameDesigner.classify [16; 24] 24 span_ft = inr rafter_span /\
    TimberFrameDesigner.classify [30; 50; 70; 100] 100 snow_load = inr load_cat /\
    TimberFrameDesigner.get_beam_size span_ft snow_load =
      inr (dict_get TimberFrameDesigner.beam_sizes (beam_span, load_cat) (12, 18)) /\
    TimberFrameDesigner.get_rafter_size span_ft snow_load =
      inr (dict_get TimberFrameDesigner.rafter_sizes (rafter_span, load_cat) (8, 14)).
Proof.
  destruct (classify_in [16; 24; 32; 40] 40 span_ft) as (bs & Ebs & _).
  destruct (classify_in [16; 24] 24 span_ft) as (rs & Ers & _).
  destruct (classify_in [30; 50; 70; 100] 100 snow_load) as (lc & Elc & _).
  exists bs, rs, lc. repeat (split; [assumption |]). split.
  - unfold TimberFrameDesigner.get_beam_size. cbv zeta.
    rewrite Ebs, Elc. reflexivity.
  - unfold TimberFrameDesigner.get_rafter_size. cbv zeta.
    rewrite Ers, Elc. reflexivity.
Qed.

(** X2.  A longer span or a heavier load never gets a smaller beam. *)
Theorem get_beam_size_monotone (span1 span2 load1 load2 : pyfloat) :
  fle span1 span2 = true ->
  fle load1 load2 = true ->
  exists size1 size2,
    TimberFrameDesigner.get_beam_size span1 load1 = inr size1 /\
    TimberFrameDesigner.get_beam_size span2 load2 = inr size2 /\
    size_le size1 size2.
Proof.
  intros Hspan Hload.
  destruct (selectors_by_category span1 load1) as (s1 & r1 & l1 & Es1 & _ & El1 & Eb1 & _).
  destruct (selectors_by_category span2 load2) as (s2 & r2 & l2 & Es2 & _ & El2 & Eb2 & _).
  eexists. eexists. split; [exact Eb1 |]. split; [exact Eb2 |].
  apply beam_sizes_monotone.
  - exact (classify_member _ _ _ _ (proj1 largest_beam_span) Es1).
  - exact (classify_member _ _ _ _ (proj1 largest_beam_span) Es2).
  - exact (classify_member _ _ _ _ (proj1 largest_load) El1).
  - exact (classify_member _ _ _ _ (proj1 largest_load) El2).
  - exact (classify_monotone _ _ _ _ _ _ largest_beam_span Hspan Es1 Es2).
  - exact (classify_monotone _ _ _ _ _ _ largest_load Hload El1 El2).
Qed.

Lemma get_beam_size_monotone_witness :
  exists size1 size2,
    TimberFrameDesigner.get_beam_size (of_int 20) (of_int 45) = inr size1 /\
    TimberFrameDesigner.get_beam_size (of_int 30) (of_int 60) = inr size2 /\
    size_le size1 size2.
Proof.
  apply (get_beam_size_monotone (of_int 20) (of_int 30) (of_int 45) (of_int 60));
    reflexivity.
Defined.

(** X3.  A longer span or a heavier load never gets a smaller rafter. *)
Theorem get_rafter_size_monotone (span1 span2 load1 load2 : pyfloat) :
  fle span1 span2 = true ->
  fle load1 load2 = true ->
  exists size1 size2,
    TimberFrameDesigner.get_rafter_size span1 load1 = inr size1 /\
    TimberFrameDesigner.get_rafter_size span2 load2 = inr size2 /\
    size_le size1 size2.
Proof.
  intros Hspan Hload.
  destruct (selectors_by_category span1 load1) as (s1 & r1 & l1 & _ & Er1 & El1 & _ & Eb1).
  destruct (selectors_by_category span2 load2) as (s2 & r2 & l2 & _ & Er2 & El2 & _ & Eb2).
  eexists. eexists. split; [exact Eb1 |]. split; [exact Eb2 |].
  apply rafter_sizes_monotone.
  - exact (classify_member _ _ _ _ (proj1 largest_rafter_span) Er1).
  - exact (classify_member _ _ _ _ (proj1 largest_rafter_span) Er2).
  - exact (classify_member _ _ _ _ (proj1 largest_load) El1).
  - exact (classify_member _ _ _ _ (proj1 largest_load) El2).
  - exact (classify_monotone _ _ _ _ _ _ largest_rafter_span Hspan Er1 Er2).
  - exact (classify_monotone _ _ _ _ _ _ largest_load Hload El1 El2).
Qed.

Lemma get_rafter_size_monotone_witness :
  exists size1 size2,
    TimberFrameDesigner.get_rafter_size (of_int 10) (of_int 45) = inr size1 /\
    TimberFrameDesigner.get_rafter_size (of_int 15) (of_int 60) = inr size2 /\
    size_le size1 size2.
Proof.
  apply (get_rafter_size_monotone (of_int 10) (of_int 15) (of_int 45) (of_int 60));
    reflexivity.
Defined.

(** An input that is not at most the default [d], the largest category,
    is classified as [d], and so is [d] itself. *)
Lemma classify_beyond (categories : list Z) (d : Z) (x : pyfloat) :
  largest_of categories d ->
  fle x (of_int d) = false ->
  TimberFrameDesigner.classify categories d x = inr d /\
  TimberFrameDesigner.classify categories d (of_int d) = inr d.
Proof.
  intros Hd Hx. split.
  - rewrite classify_total.
    destruct (List.filter _ categories) as [|y ys] eqn:E; [reflexivity |].
    assert (Hy : In y (List.filter (fun c => fle x (of_int c)) categories))
      by (rewrite E; now left).
    apply filter_In in Hy. destruct Hy as [Hin Hle].
    assert (fle x (of_int d) = true); [| congruence].
    eapply fle_trans; [exact Hle |]. apply fle_int. apply Hd, Hin.
  - destruct (classify_rounds_up categories d (of_int d) Hd)
      as (c & E & _ & Heq & _).
    rewrite E. f_equal. apply Heq; [apply Hd |].
    cbn. apply Qeq_bool_iff. reflexivity.
Qed.

(** X4.  Loads beyond the last load category, 100 psf, are sized as 100 psf. *)
Theorem sizes_beyond_load_range (span_ft snow_load : pyfloat) :
  fle snow_load (of_int 100) = false ->
  TimberFrameDesigner.get_beam_size span_ft snow_load =
    TimberFrameDesigner.get_beam_size span_ft (of_int 100) /\
  TimberFrameDesigner.get_rafter_size span_ft snow_load =
    TimberFrameDesigner.get_rafter_size span_ft (of_int 100).
Proof.
  intros H.
  destruct (classify_beyond _ _ snow_load largest_load H) as [E1 E2].
  unfold TimberFrameDesigner.get_beam_size, TimberFrameDesigner.get_rafter_size.
  cbv zeta. rewrite E1, E2. split; reflexivity.
Qed.

Lemma sizes_beyond_load_range_witness :
  TimberFrameDesigner.get_beam_size (of_int 30) (of_int 200) =
    TimberFrameDesigner.get_beam_size (of_int 30) (of_int 100) /\
  TimberFrameDesigner.get_rafter_size (of_int 30) (of_int 200) =
    TimberFrameDesigner.get_rafter_size (of_int 30) (of_int 100).
Proof.
  apply (sizes_beyond_load_range (of_int 30) (of_int 200)). reflexivity.
Defined.

(** X5.  Beam spans beyond the last span category, 40 ft, are sized as 40 ft. *)
Theorem beam_beyond_span_range (span_ft snow_load : pyfloat) :
  fle span_ft (of_int 40) = false ->
  TimberFrameDesigner.get_beam_size span_ft snow_load =
    TimberFrameDesigner.get_beam_size (of_int 40) snow_load.
Proof.
  intros H.
  destruct (classify_beyond _ _ span_ft largest_beam_span H) as [E1 E2].
  unfold TimberFrameDesigner.get_beam_size. cbv zeta. now rewrite E1, E2.
Qed.

Lemma beam_beyond_span_range_witness :
  TimberFrameDesigner.get_beam_size (of_int 60) (of_int 45) =
    TimberFrameDesigner.get_beam_size (of_int 40) (of_int 45).
Proof.
  apply (beam_beyond_span_range (of_int 60) (of_int 45)). reflexivity.
Defined.

(** X6.  Rafter spans beyond the last span category, 24 ft, are sized as 24 ft. *)
Theorem rafter_beyond_span_range (span_ft snow_load : pyfloat) :
  fle span_ft (of_int 24) = false ->
  TimberFrameDesigner.get_rafter_size span_ft snow_load =
    TimberFrameDesigner.get_rafter_size (of_int 24) snow_load.
Proof.
  intros H.
  destruct (classify_beyond _ _ span_ft largest_rafter_span H) as [E1 E2].
  unfold TimberFrameDesigner.get_rafter_size. cbv zeta. now rewrite E1, E2.
Qed.

Lemma rafter_beyond_span_range_witness :
  TimberFrameDesigner.get_rafter_size (of_int 30) (of_int 45) =
    TimberFrameDesigner.get_rafter_size (of_int 24) (of_int 45).
Proof.
  apply (rafter_beyond_span_range (of_int 30) (of_int 45)). reflexivity.
Defined.

(** ** Further facts: derived geometry *)

(** With a length that is not finite, [int] raises. *)
Lemma calculate_dimensions_not_finite (self : TimberFrameStructure.args) :
  (forall q, TimberFrameStructure.length self <> Finite q) ->
  TimberFrameStructure.calculate_dimensions self =
    inl match TimberFrameStructure.length self with
        | NaN => ValueError
        | _ => OverflowError
        end.
Proof.
  intros Hlen.
  destruct (get_beam_size_total (TimberFrameStructure.width self)
              (TimberFrameStructure.snow_load self)) as [beam Hbeam].
  destruct (py_truediv_int (TimberFrameStructure.width self) 2 ltac:(lia))
    as [half Hhalf].
  destruct (get_rafter_size_total half (TimberFrameStructure.snow_load self))
    as [rafter Hrafter].
  unfold TimberFrameStructure.calculate_dimensions. cbv zeta.
  rewrite Hbeam, Hhalf. unfold mbind at 1 2 3 4, result_bind.
  rewrite Hrafter.
  destruct (TimberFrameStructure.length self) as [q| | |];
    [destruct (Hlen q eq_refl) | reflexivity ..].
Qed.

(** What a structure that was built looks like. *)
Lemma built_structure (self : TimberFrameStructure.args)
    (st : TimberFrameStructure.t) :
  TimberFrameStructure.calculate_dimensions self = inr st ->
  exists q beam rafter half_width,
    TimberFrameStructure.length self = Finite q /\
    py_truediv (TimberFrameStructure.width self) (of_int 2) = inr half_width /\
    TimberFrameDesigner.get_beam_size (TimberFrameStructure.width self)
      (TimberFrameStructure.snow_load self) = inr beam /\
    TimberFrameDesigner.get_rafter_size half_width
      (TimberFrameStructure.snow_load self) = inr rafter /\
    st = TimberFrameStructure.Structure self
           (TimberFrameDesigner.get_post_size (TimberFrameStructure.snow_load self))
           beam rafter
           (fadd (TimberFrameStructure.wall_height self)
                 (fmul half_width (TimberFrameStructure.roof_pitch self)))
           (bents_of q)
           (Finite (q / inject_Z (bents_of q - 1))).
Proof.
  intros Hst.
  destruct (TimberFrameStructure.length self) as [q| | |] eqn:Hlen.
  2-4: rewrite calculate_dimensions_not_finite in Hst
         by (intros q; rewrite Hlen; discriminate);
       discriminate.
  destruct (get_beam_size_total (TimberFrameStructure.width self)
              (TimberFrameStructure.snow_load self)) as [beam Hbeam].
  destruct (py_truediv_int (TimberFrameStructure.width self) 2 ltac:(lia))
    as [half Hhalf].
  destruct (get_rafter_size_total half (TimberFrameStructure.snow_load self))
    as [rafter Hrafter].
  exists q, beam, rafter, half.
  repeat (split; [reflexivity || assumption |]).
  revert Hst. unfold TimberFrameStructure.calculate_dimensions. cbv zeta.
  rewrite Hbeam, Hhalf. unfold mbind at 1 2 3 4, result_bind.
  rewrite Hrafter, Hlen.
  rewrite (py_truediv_finite q 12 ltac:(lia)). unfold py_int.
  unfold mbind, result_bind, mret, result_ret.
  change (py_max 2 _) with (bents_of q).
  pose proof (bents_of_ge_2 q) as Hge.
  destruct (Z.ltb_spec 1 (bents_of q)) as [_ | Hlt]; [| lia].
  rewrite (py_truediv_finite q (bents_of q - 1) ltac:(lia)).
  now intros [= <-].
Qed.

(** X7.  Whether the structure is built depends on the length alone: a finite
    length builds it, NaN stops at [int] with [ValueError], an infinity
    with [OverflowError]. *)
Theorem calculate_dimensions_outcome (self : TimberFrameStructure.args) :
  match TimberFrameStructure.length self with
  | Finite _ => exists st, TimberFrameStructure.calculate_dimensions self = inr st
  | NaN => TimberFrameStructure.calculate_dimensions self = inl ValueError
  | PInf | NInf =>
      TimberFrameStructure.calculate_dimensions self = inl OverflowError
  end.
Proof.
  destruct (TimberFrameStructure.length self) as [q| | |] eqn:Hlen.
  - destruct (calculate_dimensions_finite self q Hlen)
      as (beam & rafter & half & _ & Hst). eauto.
  - rewrite calculate_dimensions_not_finite, Hlen; [reflexivity |].
    intros q. rewrite Hlen. discriminate.
  - rewrite calculate_dimensions_not_finite, Hlen; [reflexivity |].
    intros q. rewrite Hlen. discriminate.
  - rewrite calculate_dimensions_not_finite, Hlen; [reflexivity |].
    intros q. rewrite Hlen. discriminate.
Qed.

Ltac qdiv := unfold Qdiv, inject_Z in *; cbn [Qinv Qnum Qden] in *.

(** When half the width falls in the larger rafter category, the width
    falls in the largest beam category. *)
Lemma half_span_category (width half_width : pyfloat) (rafter_span beam_span : Z) :
  py_truediv width (of_int 2) = inr half_width ->
  TimberFrameDesigner.classify [16; 24] 24 half_width = inr rafter_span ->
  TimberFrameDesigner.classify [16; 24; 32; 40] 40 width = inr beam_span ->
  rafter_span = 16 \/ beam_span = 40.
Proof.
  destruct width as [w| | |]; cbn; intros [= <-];
    unfold TimberFrameDesigner.classify; cbn.
  - qsplit; cbn; intros [= <-] [= <-]; try lia; qprop; qdiv; lra.
  - intros _ [= <-]. now right.
  - intros [= <-] _. now left.
  - intros _ [= <-]. now right.
Qed.

(** Under one load, every rafter size of the smaller category, and the
    rafter sizes of the larger category against the beams of the largest,
    are at most the beam size. *)
Lemma rafter_le_beam_table (rafter_span beam_span load_cat : Z) :
  In rafter_span [16; 24] -> In beam_span [16; 24; 32; 40] ->
  In load_cat [30; 50; 70; 100] ->
  rafter_span = 16 \/ beam_span = 40 ->
  size_le (dict_get TimberFrameDesigner.rafter_sizes (rafter_span, load_cat) (8, 14))
          (dict_get TimberFrameDesigner.beam_sizes (beam_span, load_cat) (12, 18)).
Proof.
  cbn [In]. intros Hr Hb Hl Hrb.
  repeat match goal with H : _ \/ _ |- _ => destruct H as [<- | H] end;
    try contradiction; try lia; try discriminate;
    vm_compute; split; discriminate.
Qed.

(** X8.  In a structure that was built the rafters are never larger than the
    beams, in width or in depth. *)
Theorem rafter_within_beam (self : TimberFrameStructure.args)
    (st : TimberFrameStructure.t) :
  TimberFrameStructure.calculate_dimensions self = inr st ->
  size_le (TimberFrameStructure.rafter_size st) (TimberFrameStructure.beam_size st).
Proof.
  intros Hst.
  destruct (built_structure self st Hst)
    as (q & beam & rafter & half & _ & Hhalf & Hbeam & Hrafter & ->).
  cbn [TimberFrameStructure.rafter_size TimberFrameStructure.beam_size].
  destruct (selectors_by_category (TimberFrameStructure.width self)
              (TimberFrameStructure.snow_load self))
    as (bs & _ & lc & Ebs & _ & Elc & Eb & _).
  destruct (selectors_by_category half (TimberFrameStructure.snow_load self))
    as (_ & rs & lc' & _ & Ers & Elc' & _ & Er).
  rewrite Elc in Elc'. injection Elc' as <-.
  rewrite Eb in Hbeam. injection Hbeam as <-.
  rewrite Er in Hrafter. injection Hrafter as <-.
  apply rafter_le_beam_table.
  - exact (classify_member _ _ _ _ (proj1 largest_rafter_span) Ers).
  - exact (classify_member _ _ _ _ (proj1 largest_beam_span) Ebs).
  - exact (classify_member _ _ _ _ (proj1 largest_load) Elc).
  - exact (half_span_category _ _ _ _ Hhalf Ers Ebs).
Qed.

Lemma rafter_within_beam_witness :
  size_le (6, 8) (10, 16).
Proof.
  apply (rafter_within_beam
           (TimberFrameStructure.Args (of_int 40) (of_int 30) (of_int 10)
              (Finite (1 # 2)) (of_int 40))
           (TimberFrameStructure.Structure
              (TimberFrameStructure.Args (of_int 40) (of_int 30) (of_int 10)
                 (Finite (1 # 2)) (of_int 40))
              (8, 8) (10, 16) (6, 8) (Finite (70 # 4)) 4 (Finite (40 # 3)))).
  reflexivity.
Defined.

(** The whole bays of a valid length. *)
Lemma bents_of_floor (l : Q) :
  (0 <= l)%Q -> bents_of l = Z.max 2 (Qfloor (l / inject_Z 12) + 1).
Proof.
  intros Hl. unfold bents_of. cbv zeta. rewrite py_max_spec.
  rewrite quot_floor; [reflexivity |].
  apply Qle_shift_div_l; [reflexivity | lra].
Qed.

(** X9.  For a valid length the bents stand between 10 and 24 feet apart, and
    between 12 and 18 feet apart once the building is 24 feet long; there
    are at most nine of them, and only the two end bents below 24 feet. *)
Theorem bent_spacing_range (self : TimberFrameStructure.args) (l : Q) :
  TimberFrameStructure.length self = Finite l ->
  (10 <= l <= 100)%Q ->
  exists st s,
    TimberFrameStructure.calculate_dimensions self = inr st /\
    TimberFrameStructure.bent_spacing st = Finite s /\
    (10 <= s < 24)%Q /\
    ((24 <= l)%Q -> (12 <= s < 18)%Q) /\
    ((l < 24)%Q -> TimberFrameStructure.num_bents st = 2 /\ (s == l)%Q) /\
    TimberFrameStructure.num_bents st <= 9.
Proof.
  intros Hlen [Hlo Hhi].
  destruct (calculate_dimensions_finite self l Hlen)
    as (beam & rafter & half & _ & Hst).
  eexists. eexists. split; [exact Hst |]. split; [reflexivity |].
  cbn [TimberFrameStructure.num_bents].
  rewrite (bents_of_floor l) by lra.
  set (x := (l / inject_Z 12)%Q).
  assert (Hx : (l == 12 * x)%Q) by (unfold x; field).
  pose proof (Qfloor_le x) as Hfl. pose proof (Qlt_floor x) as Hfu.
  rewrite inject_Z_plus in Hfu. change (inject_Z 1) with 1%Q in Hfu.
  set (k := Qfloor x) in *.
  destruct (Z_le_gt_dec k 1) as [Hk | Hk].
  - replace (Z.max 2 (k + 1) - 1) with 1 by lia.
    assert (Hk' : (inject_Z k <= 1)%Q) by (rewrite Zle_Qle in Hk; exact Hk).
    assert (Hs : (l / inject_Z 1 == l)%Q) by field.
    rewrite Hs. repeat split; try lra; lia.
  - replace (Z.max 2 (k + 1) - 1) with k by lia.
    assert (Hk' : (2 <= inject_Z k)%Q)
      by (change 2%Q with (inject_Z 2); rewrite <- Zle_Qle; lia).
    assert (Hk9 : k <= 8).
    { destruct (Z_le_gt_dec k 8) as [H8 | H8]; [exact H8 |].
      assert ((9 <= inject_Z k)%Q)
        by (change 9%Q with (inject_Z 9); rewrite <- Zle_Qle; lia).
      lra. }
    assert (Hge : (12 <= l / inject_Z k)%Q)
      by (apply Qle_shift_div_l; lra).
    assert (Hlt : (l / inject_Z k < 18)%Q)
      by (apply Qlt_shift_div_r; lra).
    repeat split; try lra; try lia.
Qed.

Lemma bent_spacing_range_witness :
  exists st s,
    TimberFrameStructure.calculate_dimensions
      (TimberFrameStructure.Args (of_int 40) (of_int 30) (of_int 10)
         (Finite (1 # 2)) (of_int 40)) = inr st /\
    TimberFrameStructure.bent_spacing st = Finite s /\
    (10 <= s < 24)%Q /\
    ((24 <= inject_Z 40)%Q -> (12 <= s < 18)%Q) /\
    ((inject_Z 40 < 24)%Q -> TimberFrameStructure.num_bents st = 2 /\
                             (s == inject_Z 40)%Q) /\
    TimberFrameStructure.num_bents st <= 9.
Proof.
  apply (bent_spacing_range
           (TimberFrameStructure.Args (of_int 40) (of_int 30) (of_int 10)
              (Finite (1 # 2)) (of_int 40)) (inject_Z 40)).
  - reflexivity.
  - split; unfold Qle; simpl; lia.
Defined.

(** X10.  Plates: for a valid length, where doubling and dividing by 16
    are exact on floats, the 16 ft pieces counted by the report cover both
    walls, and one piece fewer would not. *)
Theorem plate_pieces_cover (st : TimberFrameStructure.t) (l : Q) :
  TimberFrameStructure.length (TimberFrameStructure.given st) = Finite l ->
  (10 <= l <= 100)%Q ->
  exists n,
    TimberFrameStructure.plate_pieces st = inr n /\
    (2 * l <= 16 * inject_Z n)%Q /\
    (16 * inject_Z (n - 1) < 2 * l)%Q.
Proof.
  intros Hl _. exists (Qceiling (l * 2 / 16)).
  split; [exact (plate_pieces_finite st l Hl) |].
  pose proof (Qle_ceiling (l * 2 / 16)) as Hup.
  pose proof (Qceiling_lt (l * 2 / 16)) as Hlow.
  set (n := Qceiling (l * 2 / 16)) in *.
  assert (Hx : (l * 2 / 16 == l * (1 # 8))%Q) by field.
  rewrite Hx in Hup, Hlow. split; lra.
Qed.

Lemma plate_pieces_cover_witness :
  exists n,
    TimberFrameStructure.plate_pieces
      (TimberFrameStructure.Structure
         (TimberFrameStructure.Args (of_int 40) (of_int 30) (of_int 10)
            (Finite (1 # 2)) (of_int 40))
         (8, 8) (10, 16) (6, 8) (Finite (70 # 4)) 4 (Finite (40 # 3))) = inr n /\
    (2 * inject_Z 40 <= 16 * inject_Z n)%Q /\
    (16 * inject_Z (n - 1) < 2 * inject_Z 40)%Q.
Proof.
  apply (plate_pieces_cover
           (TimberFrameStructure.Structure
              (TimberFrameStructure.Args (of_int 40) (of_int 30) (of_int 10)
                 (Finite (1 # 2)) (of_int 40))
              (8, 8) (10, 16) (6, 8) (Finite (70 # 4)) 4 (Finite (40 # 3)))
           (inject_Z 40)).
  - reflexivity.
  - split; unfold Qle; simpl; lia.
Defined.

(** ** Further facts: prompt loop *)

Lemma acceptable_finite (min_val max_val : Z) (v : pyfloat) :
  acceptable min_val max_val (Number v) -> exists q, v = Finite q.
Proof.
  intros (v' & [= <-] & Hpos & _ & Hmax).
  destruct v as [q| | |]; try discriminate. eauto.
Qed.

(** A first line that is acceptable is returned at the first prompt. *)
Lemma get_positive_float_accepts (prompt : string) (min_val max_val : Z)
    (v : pyfloat) (rest : list typed) (written : list string) :
  acceptable min_val max_val (Number v) ->
  get_positive_float prompt (Some min_val) (Some max_val)
    (Console (Number v :: rest) written) =
  (inr v, Console rest (written ++ [prompt])).
Proof.
  intros Hv.
  assert (Hret : validate (Some min_val) (Some max_val) (Number v) = Return v)
    by (apply validate_return; auto).
  unfold get_positive_float. cbn [keyboard screen get_positive_float_loop].
  now rewrite Hret.
Qed.

Lemma get_positive_float_first_acceptable_witness :
  exists written',
    get_positive_float "Enter building width (feet): " (Some 10) (Some 60)
      (Console ([NotANumber; Number (of_int 0); Number (of_int (-3));
                 Number (of_int 5); Number (of_int 61); Number PInf]
                ++ Number (of_int 30) :: [Number (of_int 12)]) []) =
    (inr (of_int 30), Console [Number (of_int 12)] written').
Proof.
  apply (get_positive_float_first_acceptable
           "Enter building width (feet): " 10 60
           [NotANumber; Number (of_int 0); Number (of_int (-3));
            Number (of_int 5); Number (of_int 61); Number PInf]
           (of_int 30) [Number (of_int 12)] []).
  - repeat constructor; try discriminate;
      intros (v & [= <-] & Hpos & Hmin & Hmax); discriminate.
  - exists (of_int 30). repeat split.
Defined.

(** X13.  Whatever is typed, a value the loop returns is positive and within
    the bounds unless it is NaN, and it is one of the typed lines, all the
    lines before it having been sent back. *)
Theorem get_positive_float_returned (prompt : string) (min_val max_val : Z)
    (c c' : console) (v : pyfloat) :
  get_positive_float prompt (Some min_val) (Some max_val) c = (inr v, c') ->
  (v = NaN \/ acceptable min_val max_val (Number v)) /\
  exists before,
    keyboard c = before ++ Number v :: keyboard c' /\
    Forall (refused (Some min_val) (Some max_val)) before.
Proof.
  unfold get_positive_float. destruct c as [lines written]. cbn [keyboard screen].
  revert written. induction lines as [|line lines IH]; intros written; cbn.
  - discriminate.
  - destruct (validate (Some min_val) (Some max_val) line) as [v0 | message] eqn:E.
    + intros [= <- <-]. apply validate_return in E. destruct E as [-> Hv].
      split; [exact Hv |]. exists []. split; [reflexivity | constructor].
    + intros H. destruct (IH _ H) as [Hv (before & -> & Hbefore)].
      split; [exact Hv |]. exists (line :: before).
      split; [reflexivity |]. constructor; [| exact Hbefore].
      exists message. exact E.
Qed.

Lemma get_positive_float_returned_witness :
  (of_int 30 = NaN \/ acceptable 10 60 (Number (of_int 30))) /\
  exists before,
    [Number (of_int 5); Number (of_int 30)] = before ++ Number (of_int 30) :: [] /\
    Forall (refused (Some 10) (Some 60)) before.
Proof.
  apply (get_positive_float_returned "width: " 10 60
           (Console [Number (of_int 5); Number (of_int 30)] [])
           (Console [] ["width: "; "Please enter a value >= 10"; "width: "]%string)
           (of_int 30)).
  reflexivity.
Defined.

(** X14.  When every typed line is sent back, the loop prompts once more and
    ends with the [EOFError] of [input]; it returns no value. *)
Theorem get_positive_float_input_exhausted (prompt : string)
    (min_val max_val : option Z) (lines : list typed) (written : list string) :
  Forall (refused min_val max_val) lines ->
  exists messages,
    List.length messages = List.length lines /\
    get_positive_float prompt min_val max_val (Console lines written) =
    (inl EOFError,
     Console [] (written ++ flat_map (fun m => [prompt; m]) messages ++ [prompt])).
Proof.
  unfold get_positive_float. cbn [keyboard screen].
  intros Hlines. revert written.
  induction Hlines as [|line lines [message Hline] _ IH]; intros written.
  - exists []. split; reflexivity.
  - destruct (IH (written ++ [prompt; message])) as (messages & Hlen & E).
    exists (message :: messages). split; [cbn; lia |].
    cbn. rewrite Hline, E. now rewrite <- List.app_assoc.
Qed.

Lemma get_positive_float_input_exhausted_witness :
  exists messages,
    List.length messages = 2%nat /\
    get_positive_float "length: " (Some 10) (Some 100)
      (Console [NotANumber; Number (of_int 0)] []) =
    (inl EOFError,
     Console [] ([] ++ flat_map (fun m => ["length: "%string; m]) messages
                 ++ ["length: "%string])).
Proof.
  apply (get_positive_float_input_exhausted "length: " (Some 10) (Some 100)
           [NotANumber; Number (of_int 0)] []).
  repeat constructor.
  - exists "Invalid input. Please enter a number."%string. reflexivity.
  - exists "Please enter a positive number."%string. reflexivity.
Defined.

(** ** Further facts: report and pipeline *)

Section PipelineFacts.

Variable np_cos np_arctan : pyfloat -> pyfloat.
Variable np_true_divide : pyfloat -> pyfloat -> pyfloat.
Variable str_float : pyfloat -> string.
Variable format_f : nat -> pyfloat -> string.

(** With a finite length the report is produced. *)
Lemma get_structure_report_finite (st : TimberFrameStructure.t) (l : Q) :
  TimberFrameStructure.length (TimberFrameStructure.given st) = Finite l ->
  exists report,
    TimberFrameStructure.get_structure_report
      np_cos np_arctan np_true_divide str_float format_f st = inr report.
Proof.
  intros Hlen.
  destruct (py_truediv_int
              (TimberFrameStructure.width (TimberFrameStructure.given st)) 2
              ltac:(lia)) as [half Hhalf].
  unfold TimberFrameStructure.get_structure_report,
    TimberFrameStructure.rafter_length.
  rewrite Hhalf. rewrite plate_pieces_finite with (l := l) by exact Hlen.
  eexists. reflexivity.
Qed.

(** X11.  Once a structure of valid length is built its report cannot
    fail: the only conversion in it that can raise, [int] of the plate
    count, has a finite argument. *)
Theorem report_of_built_structure (self : TimberFrameStructure.args)
    (st : TimberFrameStructure.t) (l : Q) :
  TimberFrameStructure.length self = Finite l ->
  (10 <= l <= 100)%Q ->
  TimberFrameStructure.calculate_dimensions self = inr st ->
  exists report,
    TimberFrameStructure.get_structure_report
      np_cos np_arctan np_true_divide str_float format_f st = inr report.
Proof.
  intros Hl _ Hst.
  destruct (built_structure self st Hst)
    as (q & beam & rafter & half & Hlen & _ & _ & _ & ->).
  apply get_structure_report_finite with (l := q). exact Hlen.
Qed.

(** X15.  Five acceptable answers: [main] reads exactly these, builds the
    structure from them (the pitch being the rise over 12), and the last
    thing it prints is the report of that structure; nothing is raised. *)
Theorem main_prints_report (length width wall_height roof_rise snow_load : pyfloat) :
  acceptable 10 100 (Number length) ->
  acceptable 10 60 (Number width) ->
  acceptable 6 20 (Number wall_height) ->
  acceptable 2 16 (Number roof_rise) ->
  acceptable 5 200 (Number snow_load) ->
  exists roof_pitch st report printed,
    py_truediv roof_rise (of_int 12) = inr roof_pitch /\
    TimberFrameStructure.__init__ length width wall_height roof_pitch snow_load
      = inr st /\
    TimberFrameStructure.get_structure_report
      np_cos np_arctan np_true_divide str_float format_f st = inr report /\
    main np_cos np_arctan np_true_divide str_float format_f
      (Console [Number length; Number width; Number wall_height;
                Number roof_rise; Number snow_load] []) =
    (inr tt, Console [] (printed ++ [report])).
Proof.
  intros Hl Hw Hh Hr Hs.
  destruct (acceptable_finite _ _ _ Hl) as [l El].
  destruct (py_truediv_int roof_rise 12 ltac:(lia)) as [pitch Hpitch].
  destruct (calculate_dimensions_finite
              (TimberFrameStructure.Args length width wall_height pitch snow_load)
              l El) as (beam & rafter & half & _ & Hst).
  match type of Hst with _ = inr ?x => set (st := x) in * end.
  destruct (get_structure_report_finite st l El) as [report Hreport].
  exists pitch, st, report. eexists.
  split; [exact Hpitch |]. split; [exact Hst |]. split; [exact Hreport |].
  unfold main, mbind, io_bind, print, lift. cbn [keyboard screen].
  rewrite (get_positive_float_accepts _ _ _ _ _ _ Hl).
  rewrite (get_positive_float_accepts _ _ _ _ _ _ Hw).
  rewrite (get_positive_float_accepts _ _ _ _ _ _ Hh).
  cbn [keyboard screen].
  rewrite (get_positive_float_accepts _ _ _ _ _ _ Hr).
  rewrite Hpitch. cbn [keyboard screen].
  rewrite (get_positive_float_accepts _ _ _ _ _ _ Hs).
  unfold TimberFrameStructure.__init__ in *. rewrite Hst, Hreport.
  cbn [keyboard screen]. reflexivity.
Qed.

End PipelineFacts.

Lemma report_of_built_structure_witness :
  exists report,
    TimberFrameStructure.get_structure_report
      (fun x => x) (fun x => x) (fun x _ => x) (fun _ => "-"%string)
      (fun _ _ => "-"%string)
      (TimberFrameStructure.Structure
         (TimberFrameStructure.Args (of_int 40) (of_int 30) (of_int 10)
            (Finite (1 # 2)) (of_int 40))
         (8, 8) (10, 16) (6, 8) (Finite (70 # 4)) 4 (Finite (40 # 3)))
      = inr report.
Proof.
  apply (report_of_built_structure
           (fun x => x) (fun x => x) (fun x _ => x) (fun _ => "-"%string)
           (fun _ _ => "-"%string)
           (TimberFrameStructure.Args (of_int 40) (of_int 30) (of_int 10)
              (Finite (1 # 2)) (of_int 40))
           (TimberFrameStructure.Structure
              (TimberFrameStructure.Args (of_int 40) (of_int 30) (of_int 10)
                 (Finite (1 # 2)) (of_int 40))
              (8, 8) (10, 16) (6, 8) (Finite (70 # 4)) 4 (Finite (40 # 3)))
           (inject_Z 40)).
  - reflexivity.
  - split; unfold Qle; simpl; lia.
  - reflexivity.
Defined.

Lemma main_prints_report_witness :
  exists roof_pitch st report printed,
    py_truediv (of_int 6) (of_int 12) = inr roof_pitch /\
    TimberFrameStructure.__init__ (of_int 40) (of_int 30) (of_int 10)
      roof_pitch (of_int 40) = inr st /\
    TimberFrameStructure.get_structure_report
      (fun x => x) (fun x => x) (fun x _ => x) (fun _ => "-"%string)
      (fun _ _ => "-"%string) st = inr report /\
    main (fun x => x) (fun x => x) (fun x _ => x) (fun _ => "-"%string)
      (fun _ _ => "-"%string)
      (Console [Number (of_int 40); Number (of_int 30); Number (of_int 10);
                Number (of_int 6); Number (of_int 40)] []) =
    (inr tt, Console [] (printed ++ [report])).
Proof.
  apply (main_prints_report
           (fun x => x) (fun x => x) (fun x _ => x) (fun _ => "-"%string)
           (fun _ _ => "-"%string)
           (of_int 40) (of_int 30) (of_int 10) (of_int 6) (of_int 40));
    eexists; repeat split.
Defined.

(** ** Further facts: the drawing *)

Lemma range_length (n : Z) : List.length (range n) = Z.to_nat n.
Proof. unfold range. now rewrite length_map, length_seq. Qed.


(** A loop whose body always draws [k] lines draws [k] lines per item. *)
Lemma for_each_lines {A : Type} (k : nat) (items : list A)
    (body : A -> result (list ax_call)) :
  (forall a, In a items ->
     exists calls, body a = inr calls /\ List.length calls = k /\
                   Forall is_plot3D calls) ->
  exists all,
    for_each items body = inr all /\
    List.length all = (k * List.length items)%nat /\
    Forall is_plot3D all.
Proof.
  induction items as [|a items IH]; intros Hbody.
  - exists []. cbn. repeat split; [lia | constructor].
  - destruct (Hbody a (or_introl eq_refl)) as (calls & Ea & Hlen & Hplot).
    destruct IH as (more & Emore & Hlen' & Hplot').
    { intros b Hb. apply Hbody. now right. }
    exists (calls ++ more). cbn [for_each]. rewrite Ea.
    unfold mbind at 1, result_bind. rewrite Emore.
    split; [reflexivity |]. split.
    + rewrite length_app. cbn [List.length]. lia.
    + apply Forall_app. auto.
Qed.

(** A post is always drawn, as twelve lines. *)
Lemma draw_post_lines (x y z1 z2 width depth : pyfloat) :
  exists calls,
    draw_post x y z1 z2 width depth = inr calls /\
    List.length calls = 12%nat /\ Forall is_plot3D calls.
Proof.
  destruct (py_truediv_int width 2 ltac:(lia)) as [hw Hw].
  destruct (py_truediv_int depth 2 ltac:(lia)) as [hd Hd].
  unfold draw_post. rewrite Hw, Hd. eexists. split; [reflexivity |].
  split; [reflexivity |]. repeat constructor.
Qed.

Lemma sum_of_squares_zero (w p h : Q) :
  ((w + - 0) * (w + - 0) + (p + - p) * (p + - p) + (h + - h) * (h + - h) == 0)%Q ->
  (w == 0)%Q.
Proof.
  intros H.
  assert (Hw : (w * w == 0)%Q) by (rewrite <- H; ring).
  destruct (Qmult_integral _ _ Hw); assumption.
Qed.

(** A loop whose body always returns, returns. *)
Lemma for_each_returns {A : Type} (items : list A)
    (body : A -> result (list ax_call)) :
  (forall a, In a items -> exists calls, body a = inr calls) ->
  exists all, for_each items body = inr all.
Proof.
  induction items as [|a items IH]; intros Hbody.
  - exists []. reflexivity.
  - destruct (Hbody a (or_introl eq_refl)) as (calls & Ea).
    destruct IH as (more & Emore).
    { intros b Hb. apply Hbody. now right. }
    exists (calls ++ more). cbn [for_each]. rewrite Ea.
    unfold mbind at 1, result_bind. now rewrite Emore.
Qed.

(** [max] of three finite values is at least each of them. *)
Lemma py_max3_upper (a b c : Q) :
  fle (Finite a) (py_max3 (Finite a) (Finite b) (Finite c)) = true /\
  fle (Finite b) (py_max3 (Finite a) (Finite b) (Finite c)) = true /\
  fle (Finite c) (py_max3 (Finite a) (Finite b) (Finite c)) = true.
Proof.
  unfold py_max3, fgt. cbn.
  destruct (Qle_bool b a) eqn:E1; cbn;
    destruct (Qle_bool c _) eqn:E2; cbn;
    repeat split; apply Qle_bool_iff; qprop; lra.
Qed.

Section DrawingFacts.

Variable np_sqrt : pyfloat -> pyfloat.
Variable str_float : pyfloat -> string.

(** The square root is zero at zero and nowhere else. *)
Hypothesis np_sqrt_zero :
  forall s, feq (np_sqrt s) (of_int 0) = feq s (of_int 0).

(** Between two posts a width apart, at a finite position, the beam is
    drawn unless the width is zero. *)
Lemma draw_beam_line (width wall_height beam_w beam_h : pyfloat) (p : Q) :
  feq width (of_int 0) = false ->
  exists call,
    draw_beam np_sqrt (of_int 0) (Finite p) wall_height width (Finite p)
      wall_height beam_w beam_h = [call] /\ is_plot3D call.
Proof.
  intros Hw. unfold draw_beam. cbv zeta. rewrite np_sqrt_zero.
  match goal with |- context [feq ?s (of_int 0)] =>
    assert (Hs : feq s (of_int 0) = false) end.
  { destruct width as [w| | |], wall_height as [h| | |];
      cbn in *; try reflexivity; try discriminate.
    apply Qeq_bool_neq in Hw.
    match goal with |- ?b = false => destruct b eqn:E; [| reflexivity] end.
    apply Qeq_bool_iff in E. apply sum_of_squares_zero in E.
    contradiction. }
  rewrite Hs. eexists. split; [reflexivity | exact I].
Qed.

(** In a structure that was built every bent stands at a finite position. *)
Lemma bent_position_finite (self : TimberFrameStructure.args)
    (st : TimberFrameStructure.t) (i : Z) :
  TimberFrameStructure.calculate_dimensions self = inr st ->
  exists p, bent_position st i = Finite p.
Proof.
  intros Hst.
  destruct (built_structure self st Hst)
    as (q & beam & rafter & half & _ & _ & _ & _ & ->).
  eexists. reflexivity.
Qed.

(** X16.  The drawing of a structure of valid length and width, of [n]
    bents, has [30 n - 3] lines: per bent two posts of twelve lines, a beam
    and two rafters, and per bay two plates and a ridge piece.  The lines
    come first, the eight calls that set up the axes after them.  (On
    these ranges the squares in [draw_beam] neither overflow nor
    underflow.) *)
Theorem visualize_3d_line_count (self : TimberFrameStructure.args)
    (st : TimberFrameStructure.t) (l w : Q) :
  TimberFrameStructure.length self = Finite l ->
  (10 <= l <= 100)%Q ->
  TimberFrameStructure.width self = Finite w ->
  (10 <= w <= 60)%Q ->
  TimberFrameStructure.calculate_dimensions self = inr st ->
  exists lines setup,
    visualize_3d np_sqrt str_float st = inr (lines ++ setup) /\
    Forall is_plot3D lines /\
    Z.of_nat (List.length lines) = 30 * TimberFrameStructure.num_bents st - 3 /\
    List.length setup = 8%nat /\
    Forall (fun call => ~ is_plot3D call) setup.
Proof.
  intros Hl _ Hwidth Hwr Hst.
  assert (Hw : feq (TimberFrameStructure.width self) (of_int 0) = false).
  { rewrite Hwidth. cbn. destruct (Qeq_bool _ _) eqn:E; [| reflexivity].
    apply Qeq_bool_iff in E. unfold inject_Z in E. lra. }
  destruct (built_structure self st Hst)
    as (q & beam & rafter & half & Hlen & Hhalf & _ & _ & Est).
  assert (Hn : TimberFrameStructure.num_bents st = bents_of q)
    by (rewrite Est; reflexivity).
  assert (Hgiven : TimberFrameStructure.given st = self)
    by (rewrite Est; reflexivity).
  pose proof (bents_of_ge_2 q) as Hge.
  unfold visualize_3d. cbv zeta. rewrite Hgiven.
  repeat match goal with
  | |- context [py_truediv (of_int ?x) (of_int 12)] =>
      let E := fresh "E" in
      destruct (py_truediv_int (of_int x) 12 ltac:(lia)) as [? E];
      rewrite E; clear E
  end.
  unfold mbind at 1 2 3 4 5 6, result_bind.
  match goal with |- context [for_each (range (TimberFrameStructure.num_bents st)) ?body] =>
    destruct (for_each_lines 27 (range (TimberFrameStructure.num_bents st)) body)
      as (bents & Ebents & Hbents & Pbents)
  end.
  { intros i _.
    match goal with |- context [for_each [?a; ?b] ?body] =>
      destruct (for_each_lines 12 [a; b] body) as (posts & Eposts & Hposts & Pposts)
    end.
    { intros position _. apply draw_post_lines. }
    rewrite Eposts, Hhalf. unfold mbind, result_bind, mret, result_ret.
    destruct (bent_position_finite self st i Hst) as [p ->].
    match goal with |- context [draw_beam _ _ _ _ _ _ _ ?bw ?bh] =>
      destruct (draw_beam_line (TimberFrameStructure.width self)
                  (TimberFrameStructure.wall_height self) bw bh p Hw)
        as (call & -> & Pcall)
    end.
    eexists. split; [reflexivity |]. split.
    - rewrite !length_app, Hposts. reflexivity.
    - repeat (apply Forall_app; split); try assumption; repeat constructor.
      exact Pcall. }
  match goal with |- context [for_each (range (TimberFrameStructure.num_bents st - 1)) ?body] =>
    destruct (for_each_lines 3 (range (TimberFrameStructure.num_bents st - 1)) body)
      as (plates & Eplates & Hplates & Pplates)
  end.
  { intros i _. rewrite Hhalf. unfold mbind, result_bind, mret, result_ret.
    eexists. split; [reflexivity |]. split; [reflexivity |].
    repeat constructor. }
  rewrite Ebents. unfold mbind at 1, result_bind. rewrite Eplates.
  unfold mbind, result_bind, mret, result_ret.
  exists (bents ++ plates). eexists.
  split; [rewrite <- List.app_assoc; reflexivity |].
  split; [apply Forall_app; auto |].
  split; [| split; [reflexivity |]].
  - rewrite length_app, Hbents, Hplates, !range_length, Hn. lia.
  - repeat constructor; intros H; exact H.
Qed.

(** X17.  The axes are a cube from 0 to one bound, and for valid
    dimensions that bound is at least the length, the width and the ridge
    height. *)
Theorem visualize_3d_axis_limits (self : TimberFrameStructure.args)
    (st : TimberFrameStructure.t) (l w h p : Q) :
  TimberFrameStructure.length self = Finite l -> (10 <= l <= 100)%Q ->
  TimberFrameStructure.width self = Finite w -> (10 <= w <= 60)%Q ->
  TimberFrameStructure.wall_height self = Finite h -> (6 <= h <= 20)%Q ->
  TimberFrameStructure.roof_pitch self = Finite p -> ((1 # 6) <= p <= (4 # 3))%Q ->
  TimberFrameStructure.calculate_dimensions self = inr st ->
  exists calls bound,
    visualize_3d np_sqrt str_float st = inr calls /\
    In (set_xlim (of_int 0) bound) calls /\
    In (set_ylim (of_int 0) bound) calls /\
    In (set_zlim (of_int 0) bound) calls /\
    fle (Finite l) bound = true /\
    fle (Finite w) bound = true /\
    fle (TimberFrameStructure.ridge_height st) bound = true.
Proof.
  intros Hl _ Hw _ Hh _ Hp _ Hst.
  destruct (built_structure self st Hst)
    as (q & beam & rafter & half & Hlen & Hhalf & _ & _ & Est).
  assert (Hgiven : TimberFrameStructure.given st = self)
    by (rewrite Est; reflexivity).
  assert (Hridge : TimberFrameStructure.ridge_height st =
                   Finite (h + (w / inject_Z 2) * p)).
  { rewrite Est. cbn [TimberFrameStructure.ridge_height].
    rewrite Hw in Hhalf. rewrite (py_truediv_finite w 2 ltac:(lia)) in Hhalf.
    injection Hhalf as <-. rewrite Hh, Hp. reflexivity. }
  unfold visualize_3d. cbv zeta. rewrite Hgiven.
  repeat match goal with
  | |- context [py_truediv (of_int ?x) (of_int 12)] =>
      let E := fresh "E" in
      destruct (py_truediv_int (of_int x) 12 ltac:(lia)) as [? E];
      rewrite E; clear E
  end.
  unfold mbind at 1 2 3 4 5 6, result_bind.
  match goal with |- context [for_each (range (TimberFrameStructure.num_bents st)) ?body] =>
    destruct (for_each_returns (range (TimberFrameStructure.num_bents st)) body)
      as (bents & Ebents)
  end.
  { intros i _.
    match goal with |- context [for_each [?a; ?b] ?body] =>
      destruct (for_each_lines 12 [a; b] body) as (posts & Eposts & _)
    end.
    { intros position _. apply draw_post_lines. }
    rewrite Eposts, Hhalf. eexists. reflexivity. }
  match goal with |- context [for_each (range (TimberFrameStructure.num_bents st - 1)) ?body] =>
    destruct (for_each_returns (range (TimberFrameStructure.num_bents st - 1)) body)
      as (plates & Eplates)
  end.
  { intros i _. rewrite Hhalf. eexists. reflexivity. }
  rewrite Ebents. unfold mbind at 1, result_bind. rewrite Eplates.
  unfold mbind, result_bind, mret, result_ret.
  rewrite Hl, Hridge, Hw.
  pose proof (py_max3_upper l w (h + (w / inject_Z 2) * p)) as (H1 & H2 & H3).
  eexists. exists (py_max3 (Finite l) (Finite w) (Finite (h + (w / inject_Z 2) * p))).
  split; [reflexivity |].
  repeat split; try assumption;
    apply in_or_app; right; apply in_or_app; right; cbn; auto 10.
Qed.

(** X19.  Between end points whose coordinates differ by nothing or on
    the scale of a building, the beam is drawn, as one line, exactly when
    the end points differ.  (On this scale the squares neither overflow
    nor underflow.) *)
Theorem draw_beam_unless_degenerate (x1 y1 z1 x2 y2 z2 : Q) (width height : pyfloat) :
  building_scale (x2 - x1) -> building_scale (y2 - y1) ->
  building_scale (z2 - z1) ->
  draw_beam np_sqrt (Finite x1) (Finite y1) (Finite z1)
    (Finite x2) (Finite y2) (Finite z2) width height =
  if Qeq_bool x1 x2 && Qeq_bool y1 y2 && Qeq_bool z1 z2 then []
  else [plot3D (Finite x1, Finite x2) (Finite y1, Finite y2)
          (Finite z1, Finite z2) "saddlebrown" 3].
Proof.
  intros _ _ _.
  unfold draw_beam. cbv zeta. rewrite np_sqrt_zero. cbn [fsub fneg fadd fmul feq of_int].
  destruct (Qeq_bool x1 x2) eqn:Ex, (Qeq_bool y1 y2) eqn:Ey,
    (Qeq_bool z1 z2) eqn:Ez; cbn [andb];
    match goal with |- (if ?b then _ else _) = _ => destruct b eqn:E end;
    try reflexivity; exfalso; qprop; unfold inject_Z in *;
    try (apply E; nra); try nra.
Qed.

End DrawingFacts.



Lemma visualize_3d_line_count_witness :
  exists lines setup,
    visualize_3d (fun s => s) (fun _ => "-"%string)
      (TimberFrameStructure.Structure
         (TimberFrameStructure.Args (of_int 40) (of_int 30) (of_int 10)
            (Finite (1 # 2)) (of_int 40))
         (8, 8) (10, 16) (6, 8) (Finite (70 # 4)) 4 (Finite (40 # 3)))
      = inr (lines ++ setup) /\
    Z.of_nat (List.length lines) = 117 /\
    List.length setup = 8%nat.
Proof.
  assert (Hl : (10 <= inject_Z 40 <= 100)%Q) by (split; unfold Qle; simpl; lia).
  assert (Hw : (10 <= inject_Z 30 <= 60)%Q) by (split; unfold Qle; simpl; lia).
  destruct (visualize_3d_line_count (fun s => s) (fun _ => "-"%string)
              (fun s => eq_refl)
              (TimberFrameStructure.Args (of_int 40) (of_int 30) (of_int 10)
                 (Finite (1 # 2)) (of_int 40))
              (TimberFrameStructure.Structure
                 (TimberFrameStructure.Args (of_int 40) (of_int 30) (of_int 10)
                    (Finite (1 # 2)) (of_int 40))
                 (8, 8) (10, 16) (6, 8) (Finite (70 # 4)) 4 (Finite (40 # 3)))
              (inject_Z 40) (inject_Z 30) eq_refl Hl eq_refl Hw eq_refl)
    as (lines & setup & E & _ & Hcount & Hsetup & _).
  exists lines, setup. repeat split; assumption.
Defined.

Lemma visualize_3d_axis_limits_witness :
  exists calls bound,
    visualize_3d (fun s => s) (fun _ => "-"%string)
      (TimberFrameStructure.Structure
         (TimberFrameStructure.Args (of_int 40) (of_int 30) (of_int 10)
            (Finite (1 # 2)) (of_int 40))
         (8, 8) (10, 16) (6, 8) (Finite (70 # 4)) 4 (Finite (40 # 3)))
      = inr calls /\
    In (set_xlim (of_int 0) bound) calls /\
    In (set_ylim (of_int 0) bound) calls /\
    In (set_zlim (of_int 0) bound) calls /\
    fle (of_int 40) bound = true /\
    fle (of_int 30) bound = true /\
    fle (Finite (70 # 4)) bound = true.
Proof.
  apply (visualize_3d_axis_limits (fun s => s) (fun _ => "-"%string)
           (TimberFrameStructure.Args (of_int 40) (of_int 30) (of_int 10)
              (Finite (1 # 2)) (of_int 40))
           (TimberFrameStructure.Structure
              (TimberFrameStructure.Args (of_int 40) (of_int 30) (of_int 10)
                 (Finite (1 # 2)) (of_int 40))
              (8, 8) (10, 16) (6, 8) (Finite (70 # 4)) 4 (Finite (40 # 3)))
           (inject_Z 40) (inject_Z 30) (inject_Z 10) (1 # 2));
    try reflexivity; split; unfold Qle; simpl; lia.
Defined.

Lemma draw_beam_unless_degenerate_witness :
  draw_beam (fun s => s) (of_int 0) (of_int 12) (of_int 10)
    (of_int 0) (of_int 12) (of_int 10) (of_int 1) (of_int 1) = [] /\
  draw_beam (fun s => s) (of_int 0) (of_int 12) (of_int 10)
    (of_int 30) (of_int 12) (of_int 10) (of_int 1) (of_int 1) =
    [plot3D (of_int 0, of_int 30) (of_int 12, of_int 12)
       (of_int 10, of_int 10) "saddlebrown" 3].
Proof.
  assert (H0 : building_scale (inject_Z 0 - inject_Z 0)) by (left; reflexivity).
  assert (H12 : building_scale (inject_Z 12 - inject_Z 12)) by (left; reflexivity).
  assert (H10 : building_scale (inject_Z 10 - inject_Z 10)) by (left; reflexivity).
  assert (H30 : building_scale (inject_Z 30 - inject_Z 0)).
  { right. split; unfold Qle; simpl; lia. }
  split.
  - apply (draw_beam_unless_degenerate (fun s => s) (fun s => eq_refl)
             (inject_Z 0) (inject_Z 12) (inject_Z 10)
             (inject_Z 0) (inject_Z 12) (inject_Z 10) _ _ H0 H12 H10).
  - apply (draw_beam_unless_degenerate (fun s => s) (fun s => eq_refl)
             (inject_Z 0) (inject_Z 12) (inject_Z 10)
             (inject_Z 30) (inject_Z 12) (inject_Z 10) _ _ H30 H12 H10).
Defined.

(** X20.  A post on the scale of a building (a position within a thousand
    feet, a width and a depth from a hundredth of a foot to a hundred feet)
    and of a height that is not zero is drawn as the twelve edges of a box:
    the bottom face and the top face, each going round along x, y, x, y, and
    then the four uprights along z.  (On this scale the half width and the
    half depth are not absorbed by the position.) *)
Theorem draw_post_box (x y z1 z2 width depth : Q) :
  (Qabs x <= 1000)%Q -> (Qabs y <= 1000)%Q ->
  ((1 # 100) <= width <= 100)%Q -> ((1 # 100) <= depth <= 100)%Q ->
  ~ (z1 == z2)%Q ->
  exists calls,
    draw_post (Finite x) (Finite y) (Finite z1) (Finite z2)
      (Finite width) (Finite depth) = inr calls /\
    map edge_axis calls =
      [Some 0; Some 1; Some 0; Some 1;
       Some 0; Some 1; Some 0; Some 1;
       Some 2; Some 2; Some 2; Some 2]%nat.
Proof.
  intros _ _ Hw Hd Hz. unfold draw_post.
  rewrite !(py_truediv_finite _ 2 ltac:(lia)).
  eexists. split; [reflexivity |].
  cbn [for_each mbind result_bind mret result_ret app map nth fst snd
       fsub fadd fneg].
  repeat match goal with
  | |- (_ :: _) = (_ :: _) => apply (f_equal2 cons)
  end;
  try reflexivity;
  unfold edge_axis, plot_edge; cbn [fst snd feq];
  repeat match goal with
  | |- context [Qeq_bool ?a ?b] => destruct (Qeq_bool a b) eqn:?
  end;
  try reflexivity; exfalso; qprop; qdiv; lra.
Qed.

Lemma draw_post_box_witness :
  exists calls,
    draw_post (of_int 0) (of_int 12) (of_int 0) (of_int 10)
      (Finite (2 # 3)) (Finite (2 # 3)) = inr calls /\
    map edge_axis calls =
      [Some 0; Some 1; Some 0; Some 1;
       Some 0; Some 1; Some 0; Some 1;
       Some 2; Some 2; Some 2; Some 2]%nat.
Proof.
  apply (draw_post_box (inject_Z 0) (inject_Z 12) (inject_Z 0) (inject_Z 10)
           (2 # 3) (2 # 3));
    try discriminate; try (split; unfold Qle; simpl; lia);
    unfold Qle; simpl; lia.
Defined.
